(** * LDAP connector of taiga-contrib-ldap-auth-ext

    A shallow embedding of [taiga_contrib_ldap_auth_ext/connector.py]:
    the module constants read from the Django settings, [_get_server],
    [_get_auth_details] and [login], together with the parts of Python
    and of the ldap3 library that these functions call.

    Python [str] values are sequences of Unicode code points, [bytes]
    values are sequences of octets; both are lists of integers here.
    The ldap3 library and the directory server behind it are an
    arbitrary oracle ([Ldap3]); every call made to it is recorded in a
    trace. *)

From Stdlib Require Import ZArith Lia String Ascii.
From stdpp Require Import base option list strings gmap.

Local Open Scope Z_scope.

(** ** Python strings and bytes *)

(** A [str] is a list of code points, a [bytes] a list of octets. *)
Abbreviation str := (list Z) (only parsing).
Abbreviation bytes := (list Z) (only parsing).

(** A string literal of the source, as a [str]. *)
Definition lit (s : string) : str :=
  map (fun a => Z.of_N (N_of_ascii a)) (list_ascii_of_string s).

(** [s.startswith(p)]. *)
Fixpoint startswith (s p : str) {struct p} : bool :=
  match p, s with
  | [], _ => true
  | _ :: _, [] => false
  | x :: p', c :: s' => (c =? x) && startswith s' p'
  end.

(** [sub in s] for two strings. *)
Fixpoint contains (sub s : str) : bool :=
  startswith s sub ||
  match s with
  | [] => false
  | _ :: s' => contains sub s'
  end.

(** [s.replace(old, new)] for a non-empty [old] (both call sites pass
    a non-empty literal): occurrences are replaced from left to right
    without overlap. [skip] counts the characters of a matched
    occurrence that are still to be dropped. *)
Fixpoint replace_from (old new : str) (skip : nat) (s : str) : str :=
  match s with
  | [] => []
  | c :: s' =>
      match skip with
      | S k => replace_from old new k s'
      | O =>
          if startswith s old
          then new ++ replace_from old new (Nat.pred (length old)) s'
          else c :: replace_from old new 0 s'
      end
  end.

Definition replace (old new s : str) : str := replace_from old new 0 s.

(** [s.lower()] on the ASCII letters. Python lower-cases all of
    Unicode; no code point outside ASCII lower-cases to a character of
    [ldaps://], the only string the result is compared with, so the
    comparison at the single call site is the same. *)
Definition lower_char (c : Z) : Z :=
  if (65 <=? c) && (c <=? 90) then c + 32 else c.

Definition lower (s : str) : str := map lower_char s.

(** Truth value of a string: non-empty. *)
Definition nonempty {A} (l : list A) : bool :=
  match l with [] => false | _ :: _ => true end.

(** ** UTF-8 *)

Definition is_surrogate (c : Z) : bool := (55296 <=? c) && (c <=? 57343).

Definition is_cont (b : Z) : bool := (128 <=? b) && (b <=? 191).

(** [bytes(s, 'utf-8')] on one code point; [None] is UnicodeEncodeError
    (a lone surrogate; code points of a Python [str] are below
    0x110000). *)
Definition utf8_encode_cp (c : Z) : option bytes :=
  if c <? 0 then None
  else if c <? 128 then Some [c]
  else if c <? 2048 then Some [192 + c / 64; 128 + c mod 64]
  else if c <? 65536 then
    if is_surrogate c then None
    else Some [224 + c / 4096; 128 + (c / 64) mod 64; 128 + c mod 64]
  else if c <? 1114112 then
    Some [240 + c / 262144; 128 + (c / 4096) mod 64;
          128 + (c / 64) mod 64; 128 + c mod 64]
  else None.

Fixpoint utf8_encode (s : str) : option bytes :=
  match s with
  | [] => Some []
  | c :: s' =>
      match utf8_encode_cp c, utf8_encode s' with
      | Some b, Some bs => Some (b ++ bs)
      | _, _ => None
      end
  end.

(** [b.decode('utf-8')] with the strict error handler; [None] is
    UnicodeDecodeError (bad lead or continuation octet, truncated or
    overlong sequence, surrogate, value above 0x10FFFF). *)
Fixpoint utf8_decode (b : bytes) : option str :=
  match b with
  | [] => Some []
  | b0 :: t0 =>
      if (0 <=? b0) && (b0 <? 128) then cons b0 <$> utf8_decode t0
      else if (194 <=? b0) && (b0 <=? 223) then
        match t0 with
        | b1 :: t1 =>
            if is_cont b1
            then cons ((b0 - 192) * 64 + (b1 - 128)) <$> utf8_decode t1
            else None
        | _ => None
        end
      else if (224 <=? b0) && (b0 <=? 239) then
        match t0 with
        | b1 :: b2 :: t2 =>
            let c := (b0 - 224) * 4096 + (b1 - 128) * 64 + (b2 - 128) in
            if is_cont b1 && is_cont b2 && (2048 <=? c) && negb (is_surrogate c)
            then cons c <$> utf8_decode t2
            else None
        | _ => None
        end
      else if (240 <=? b0) && (b0 <=? 244) then
        match t0 with
        | b1 :: b2 :: b3 :: t3 =>
            let c := (b0 - 240) * 262144 + (b1 - 128) * 4096
                     + (b2 - 128) * 64 + (b3 - 128) in
            if is_cont b1 && is_cont b2 && is_cont b3
               && (65536 <=? c) && (c <? 1114112)
            then cons c <$> utf8_decode t3
            else None
        | _ => None
        end
      else None
  end.

(** ** ldap3.utils.conv.escape_filter_chars *)

(** Modelled from the spec: [escape_filter_chars] belongs to the ldap3
    library, not to this repository. It escapes the characters that
    RFC 4515 reserves in a filter value: on a [str] it replaces, in
    this order, the backslash, [*], [(], [)] and NUL by a backslash and
    the two hexadecimal digits of the character. *)
Definition escape_filter_chars (text : str) : str :=
  let escaped := replace (lit "\") (lit "\5c") text in
  let escaped := replace (lit "*") (lit "\2a") escaped in
  let escaped := replace (lit "(") (lit "\28") escaped in
  let escaped := replace (lit ")") (lit "\29") escaped in
  let escaped := replace [0] (lit "\00") escaped in
  escaped.

(** One pass over the text doing the five replacements at once. *)
Definition escape_char (c : Z) : str :=
  if c =? 92 then lit "\5c"
  else if c =? 42 then lit "\2a"
  else if c =? 40 then lit "\28"
  else if c =? 41 then lit "\29"
  else if c =? 0 then lit "\00"
  else [c].

(** A character the filter grammar gives a meaning to. *)
Definition is_filter_meta (c : Z) : bool :=
  (c =? 42) || (c =? 40) || (c =? 41) || (c =? 0).

(** How a directory server reads the value of [(attr=value)]
    (RFC 4515): up to the first unescaped [)], a backslash and two
    hexadecimal digits standing for one character, an unescaped [*]
    being a wildcard; an unescaped [(] or NUL is not a value. *)
Inductive vitem := Lit (c : Z) | Star.

Definition hexval (c : Z) : option Z :=
  if (48 <=? c) && (c <=? 57) then Some (c - 48)
  else if (97 <=? c) && (c <=? 102) then Some (c - 87)
  else if (65 <=? c) && (c <=? 70) then Some (c - 55)
  else None.

Fixpoint read_value (s : str) : option (list vitem * str) :=
  match s with
  | [] => None
  | c :: s' =>
      if c =? 41 then Some ([], s')
      else if (c =? 40) || (c =? 0) then None
      else if c =? 42 then
        match read_value s' with
        | Some (v, rest) => Some (Star :: v, rest)
        | None => None
        end
      else if c =? 92 then
        match s' with
        | h :: l :: s'' =>
            match hexval h, hexval l, read_value s'' with
            | Some x, Some y, Some (v, rest) => Some (Lit (16 * x + y) :: v, rest)
            | _, _, _ => None
            end
        | _ => None
        end
      else
        match read_value s' with
        | Some (v, rest) => Some (Lit c :: v, rest)
        | None => None
        end
  end.

(** ** Filters as a directory server parses them (RFC 4515) *)

#[warnings="-register-all"]
Inductive ldap_filter :=
  | FAnd (l : list ldap_filter)
  | FOr (l : list ldap_filter)
  | FNot (f : ldap_filter)
  | FMatch (attr : list Z) (value : list vitem).

(** A character an attribute description may hold: none of those the
    grammar reserves. *)
Definition is_attr_char (c : Z) : bool :=
  negb ((c =? 40) || (c =? 41) || (c =? 42) || (c =? 92) || (c =? 0)
        || (c =? 61) || (c =? 38) || (c =? 124) || (c =? 33)).

(** The attribute description of an item, up to its [=]. *)
Fixpoint read_attr (s : list Z) : option (list Z * list Z) :=
  match s with
  | [] => None
  | c :: s' =>
      if c =? 61 then Some ([], s')
      else if is_attr_char c then
        match read_attr s' with
        | Some (a, rest) => Some (c :: a, rest)
        | None => None
        end
      else None
  end.

(** [filter = "(" ( "&" filterlist / "|" filterlist / "!" filter / item ) ")"],
    [item = attr "=" value]; [fuel] bounds the number of filters and
    lists read. *)
Fixpoint parse_filter (fuel : nat) (s : list Z) : option (ldap_filter * list Z) :=
  match fuel with
  | O => None
  | S n =>
      match s with
      | c0 :: c1 :: s' =>
          if negb (c0 =? 40) then None
          else if c1 =? 38 then
            match parse_filters n s' with
            | Some (l, rest) => Some (FAnd l, rest)
            | None => None
            end
          else if c1 =? 124 then
            match parse_filters n s' with
            | Some (l, rest) => Some (FOr l, rest)
            | None => None
            end
          else if c1 =? 33 then
            match parse_filter n s' with
            | Some (f, 41 :: rest) => Some (FNot f, rest)
            | _ => None
            end
          else
            match read_attr (c1 :: s') with
            | Some (a, s'') =>
                match read_value s'' with
                | Some (v, rest) => Some (FMatch a v, rest)
                | None => None
                end
            | None => None
            end
      | _ => None
      end
  end
with parse_filters (fuel : nat) (s : list Z) : option (list ldap_filter * list Z) :=
  match fuel with
  | O => None
  | S n =>
      match s with
      | [] => None
      | c :: s' =>
          if c =? 41 then Some ([], s')
          else
            match parse_filter n s with
            | Some (f, s1) =>
                match parse_filters n s1 with
                | Some (l, rest) => Some (f :: l, rest)
                | None => None
                end
            | None => None
            end
      end
  end.


(** An attribute description: non-empty, without a reserved character. *)
Definition plain_name (a : list Z) : bool :=
  nonempty a && forallb is_attr_char a.

(** ** Exceptions *)

(** The two exception classes the module raises ([LDAPConnectionError]
    and [LDAPUserLoginError], both subclasses of [LDAPError], built
    from the dictionary [{"error_message": ...}]) and the Python
    exceptions its statements can raise. [Ldap3Exception] is any
    [Exception] raised inside the ldap3 library; [cause] is its
    [str()]. *)
Inductive exn :=
  | LDAPConnectionError (error_message : str)
  | LDAPUserLoginError (error_message : str)
  | UnboundLocalError (name : str)
  | AttributeError (text : str)
  | TypeError (text : str)
  | IndexError (text : str)
  | UnicodeDecodeError
  | UnicodeEncodeError
  | Ldap3Exception (cause : str).

(** [str(e)], as [%s] formats the exception. The text of
    UnboundLocalError is that of CPython 3.11 and later; for the two
    Unicode errors CPython also reports the position, which is left
    out. No statement of the module formats one of its own two
    exceptions. *)
Definition exn_str (e : exn) : str :=
  match e with
  | LDAPConnectionError m | LDAPUserLoginError m => m
  | UnboundLocalError name =>
      lit "cannot access local variable '" ++ name
      ++ lit "' where it is not associated with a value"
  | AttributeError text | TypeError text | IndexError text => text
  | UnicodeDecodeError => lit "'utf-8' codec can't decode byte: invalid start byte"
  | UnicodeEncodeError => lit "'utf-8' codec can't encode character: surrogates not allowed"
  | Ldap3Exception cause => cause
  end.

(** Is the exception one of the two kinds the module documents? *)
Definition is_ldap_error (e : exn) : bool :=
  match e with
  | LDAPConnectionError _ | LDAPUserLoginError _ => true
  | _ => false
  end.

(** ** The ldap3 interface *)

Inductive get_info_t := NONE.
Inductive auto_bind_t := AUTO_BIND_NO_TLS | AUTO_BIND_TLS_BEFORE_BIND.
Inductive authentication_t := ANONYMOUS | SIMPLE.
Inductive client_strategy_t := SYNC.
Inductive search_scope_t := SUBTREE.

(** The value of the settings [LDAP_PORT] (a number or its text) and
    [LDAP_TLS_CERTS] (a text or an ldap3 [Tls] object). *)
Inductive port_value := PortStr (s : str) | PortInt (n : Z).
Inductive tls_value := TlsStr (s : str) | TlsObject (ca_certs_file : str).

(** [bool(v)]: a text is true when non-empty, an object always. *)
Definition tls_truthy (v : tls_value) : bool :=
  match v with
  | TlsStr s => nonempty s
  | TlsObject _ => true
  end.

(** A [Server] object: the arguments it was constructed with. *)
Record Server := {
  host : str;
  port : port_value;
  get_info : get_info_t;
  use_ssl : bool;
  tls : option tls_value
}.

(** A [Connection] object: the arguments it was constructed with.
    [c_server] is [None] when Python's [None] is passed. *)
Record Connection := {
  c_server : option Server;
  c_auto_bind : auto_bind_t;
  c_client_strategy : client_strategy_t;
  c_check_names : bool;
  c_authentication : authentication_t;
  c_user : option str;
  c_password : option str
}.

(** The keyword arguments of [Connection.search]. *)
Record search_args := {
  search_base : str;
  search_filter : str;
  search_scope : search_scope_t;
  attributes : list str;
  paged_size : Z
}.

(** One element of [c.response]: a dictionary, of which the connector
    reads the keys ['dn'] and ['raw_attributes'] ([None]: key absent).
    The attributes are a dictionary from attribute name to the list of
    the raw values, read with [get]. *)
Record response_entry := {
  dn : option str;
  raw_attributes : option (gmap (list Z) (list (list Z)))
}.

(** What the process did to the directory, in order. A call that
    raised carries the text of its exception. [EvUnbind] is the release
    of a session ([Connection.unbind]); no statement of the connector
    produces it. *)
Inductive event :=
  | EvServer (s : Server) (raised : option str)
  | EvConnection (c : Connection) (raised : option str)
  | EvSearch (c : Connection) (a : search_args) (outcome : str + list response_entry)
  | EvUnbind (c : Connection).

(** The ldap3 library with the directory server behind it: whether
    each call raises, and what a search answers, given the calls made
    so far. Nothing is assumed about it; in particular it decides what
    a [Connection] does whose server is Python's [None]. *)
Record Ldap3 := {
  Server_raises : Server -> option str;
  Connection_raises : list event -> Connection -> option str;
  search_outcome : list event -> Connection -> search_args -> str + list response_entry
}.

(** ** The monad of the connector: a trace of calls and an exception
    or a value *)

Definition M (A : Type) : Type := list event -> list event * (exn + A).

Definition ret {A} (x : A) : M A := fun t => (t, inr x).

Definition raise {A} (e : exn) : M A := fun t => (t, inl e).

Definition bind {A B} (m : M A) (k : A -> M B) : M B :=
  fun t =>
    match m t with
    | (t', inl e) => (t', inl e)
    | (t', inr x) => k x t'
    end.

(** [try: m except Exception as e: h e]. *)
Definition try_except {A} (m : M A) (h : exn -> M A) : M A :=
  fun t =>
    match m t with
    | (t', inl e) => h e t'
    | r => r
    end.

Notation "x <- m ;; k" := (bind m (fun x => k))
  (at level 100, m at next level, right associativity).

(** A run starts with nothing done. *)
Definition trace {A} (m : M A) : list event := fst (m []).
Definition result {A} (m : M A) : exn + A := snd (m []).

Section Connector.

Variable ldap : Ldap3.

(** [Server(...)]. *)
Definition ldap3_Server (s : Server) : M Server :=
  fun t =>
    match Server_raises ldap s with
    | Some cause => (t ++ [EvServer s (Some cause)], inl (Ldap3Exception cause))
    | None => (t ++ [EvServer s None], inr s)
    end.

(** [Connection(...)], which binds at once ([auto_bind]). *)
Definition ldap3_Connection (c : Connection) : M Connection :=
  fun t =>
    match Connection_raises ldap t c with
    | Some cause => (t ++ [EvConnection c (Some cause)], inl (Ldap3Exception cause))
    | None => (t ++ [EvConnection c None], inr c)
    end.

(** [c.search(...)]; the value is [c.response]. *)
Definition ldap3_search (c : Connection) (a : search_args) : M (list response_entry) :=
  fun t =>
    match search_outcome ldap t c a with
    | inl cause => (t ++ [EvSearch c a (inl cause)], inl (Ldap3Exception cause))
    | inr r => (t ++ [EvSearch c a (inr r)], inr r)
    end.

(** *** Module constants *)

(** The attributes of [django.conf.settings] the module reads; [None]
    when the attribute is not set. *)
Record Settings := {
  LDAP_SERVER : option str;
  LDAP_PORT : option port_value;
  LDAP_SEARCH_BASE : option str;
  LDAP_SEARCH_FILTER_ADDITIONAL : option str;
  LDAP_BIND_DN : option str;
  LDAP_BIND_PASSWORD : option str;
  LDAP_USERNAME_ATTRIBUTE : option str;
  LDAP_EMAIL_ATTRIBUTE : option str;
  LDAP_FULL_NAME_ATTRIBUTE : option str;
  LDAP_TLS_CERTS : option tls_value;
  LDAP_START_TLS : option bool
}.

Variable settings : Settings.

(** [getattr(settings, name, default)]. *)
Definition getattr {A} (field : Settings -> option A) (default : A) : A :=
  match field settings with
  | Some v => v
  | None => default
  end.

Definition SERVER := getattr LDAP_SERVER (lit "localhost").
Definition PORT := getattr LDAP_PORT (PortStr (lit "389")).

Definition SEARCH_BASE := getattr LDAP_SEARCH_BASE (lit "").
Definition SEARCH_FILTER_ADDITIONAL := getattr LDAP_SEARCH_FILTER_ADDITIONAL (lit "").
Definition BIND_DN := getattr LDAP_BIND_DN (lit "").
Definition BIND_PASSWORD := getattr LDAP_BIND_PASSWORD (lit "").

Definition USERNAME_ATTRIBUTE := getattr LDAP_USERNAME_ATTRIBUTE (lit "uid").
Definition EMAIL_ATTRIBUTE := getattr LDAP_EMAIL_ATTRIBUTE (lit "mail").
Definition FULL_NAME_ATTRIBUTE := getattr LDAP_FULL_NAME_ATTRIBUTE (lit "displayName").

Definition TLS_CERTS := getattr LDAP_TLS_CERTS (TlsStr (lit "")).
Definition START_TLS := getattr LDAP_START_TLS false.

(** *** [_get_server] *)

(** The [Server] the function constructs. *)
Definition server_object : Server :=
  let tls := if tls_truthy TLS_CERTS then Some TLS_CERTS else None in
  let use_ssl := startswith (lower SERVER) (lit "ldaps://") in
  {| host := SERVER; port := PORT; get_info := NONE;
     use_ssl := use_ssl; tls := tls |}.

(** The body ends after the [try] statement: there is no [return],
    so the call evaluates to Python's [None]. *)
Definition _get_server : M (option Server) :=
  server <- try_except (ldap3_Server server_object)
              (fun e =>
                 let error := lit "Error connecting to LDAP server: " ++ exn_str e in
                 raise (LDAPConnectionError error)) ;;
  ret None.

(** *** [_get_auth_details] *)

(** The dictionary the function returns, by its three keys. *)
Record auth_details := {
  d_user : option str;
  d_password : option str;
  d_authentication : authentication_t
}.

(** [password] is assigned in the body, so it is a local variable of
    the function: reading it in [password = password] before any
    assignment raises UnboundLocalError. *)
Definition _get_auth_details (username_sanitized : str) : M auth_details :=
  if nonempty BIND_DN && contains (lit "<username>") BIND_DN then
    let user := replace (lit "<username>") username_sanitized BIND_DN in
    raise (UnboundLocalError (lit "password"))
  else if nonempty BIND_DN then
    ret {| d_user := Some BIND_DN; d_password := Some BIND_PASSWORD;
           d_authentication := SIMPLE |}
  else
    ret {| d_user := None; d_password := None; d_authentication := ANONYMOUS |}.

(** *** [login] *)

(** [key in r] for a key of a response entry. *)
Definition has_key {A} (v : option A) : bool :=
  match v with Some _ => true | None => false end.

(** ['raw_attributes' in r and 'dn' in r]. *)
Definition is_user_object (r : response_entry) : bool :=
  has_key (raw_attributes r) && has_key (dn r).

(** Truth value of [raw_attributes.get(name)]: neither [None] nor an
    empty list. *)
Definition truthy (v : option (list (list Z))) : bool :=
  match v with
  | Some (_ :: _) => true
  | _ => false
  end.

(** [raw_attributes.get(name)[0].decode('utf-8')]. *)
Definition decode_first (v : option (list (list Z))) : M str :=
  match v with
  | Some (b :: _) =>
      match utf8_decode b with
      | Some s => ret s
      | None => raise UnicodeDecodeError
      end
  | Some [] => raise (IndexError (lit "list index out of range"))
  | None => raise (TypeError (lit "'NoneType' object is not subscriptable"))
  end.

(** [str(bytes(d, 'utf-8'), encoding='utf-8')] for [d = r.get('dn')]. *)
Definition recode_dn (d : option str) : M str :=
  match d with
  | Some d =>
      match utf8_encode d with
      | Some b =>
          match utf8_decode b with
          | Some s => ret s
          | None => raise UnicodeDecodeError
          end
      | None => raise UnicodeEncodeError
      end
  | None => raise (TypeError (lit "encoding without a string argument"))
  end.

Definition login (username_or_email password : str) : M (str * str * str) :=
  server <- _get_server ;;
  let username_or_email_sanitized := escape_filter_chars username_or_email in

  let auto_bind :=
    if START_TLS then AUTO_BIND_TLS_BEFORE_BIND else AUTO_BIND_NO_TLS in

  c <- try_except
         (d <- _get_auth_details username_or_email_sanitized ;;
          ldap3_Connection
            {| c_server := server; c_auto_bind := auto_bind;
               c_client_strategy := SYNC; c_check_names := true;
               c_authentication := d_authentication d;
               c_user := d_user d; c_password := d_password d |})
         (fun e =>
            let error := lit "Error connecting to LDAP server: " ++ exn_str e in
            raise (LDAPConnectionError error)) ;;

  (* search for user-provided login *)
  let search_filter :=
    lit "(|(" ++ USERNAME_ATTRIBUTE ++ lit "=" ++ username_or_email_sanitized
    ++ lit ")(" ++ EMAIL_ATTRIBUTE ++ lit "=" ++ username_or_email_sanitized
    ++ lit "))" in
  let search_filter :=
    if nonempty SEARCH_FILTER_ADDITIONAL
    then lit "(&" ++ search_filter ++ SEARCH_FILTER_ADDITIONAL ++ lit ")"
    else search_filter in
  response <- try_except
                (ldap3_search c
                   {| search_base := SEARCH_BASE;
                      search_filter := search_filter;
                      search_scope := SUBTREE;
                      attributes := [USERNAME_ATTRIBUTE; EMAIL_ATTRIBUTE;
                                     FULL_NAME_ATTRIBUTE];
                      paged_size := 5 |})
                (fun e =>
                   let error := lit "LDAP login incorrect: " ++ exn_str e in
                   raise (LDAPUserLoginError error)) ;;

  (* we are only interested in user objects in the response *)
  let response := List.filter is_user_object response in
  (* stop if no search results *)
  if negb (nonempty response) then
    raise (LDAPUserLoginError (lit "LDAP login not found"))
  (* handle multiple matches *)
  else if (1 <? length response)%nat then
    raise (LDAPUserLoginError (lit "LDAP login could not be determined."))
  else
  match response with
  | [] => raise (IndexError (lit "list index out of range"))
  | r0 :: _ =>
  (* handle missing mandatory attributes *)
  match raw_attributes r0 with
  | None => raise (AttributeError (lit "'NoneType' object has no attribute 'get'"))
  | Some raw_attributes =>
  if negb (truthy (raw_attributes !! USERNAME_ATTRIBUTE) &&
           truthy (raw_attributes !! EMAIL_ATTRIBUTE) &&
           truthy (raw_attributes !! FULL_NAME_ATTRIBUTE)) then
    raise (LDAPUserLoginError (lit "LDAP login is invalid."))
  else
  (* attempt LDAP bind *)
  username <- decode_first (raw_attributes !! USERNAME_ATTRIBUTE) ;;
  email <- decode_first (raw_attributes !! EMAIL_ATTRIBUTE) ;;
  full_name <- decode_first (raw_attributes !! FULL_NAME_ATTRIBUTE) ;;
  _ <- try_except
         (dn <- recode_dn (dn r0) ;;
          ldap3_Connection
            {| c_server := server; c_auto_bind := auto_bind;
               c_client_strategy := SYNC; c_check_names := true;
               c_authentication := SIMPLE;
               c_user := Some dn; c_password := Some password |})
         (fun e =>
            let error := lit "LDAP bind failed: " ++ exn_str e in
            raise (LDAPUserLoginError error)) ;;

  (* LDAP binding successful, but some values might have changed, or
     this is the user's first login, so return them *)
  ret (username, email, full_name)
  end
  end.

(** The statements of [login] that follow the search (from the
    selection of the user objects to the end), as a function of the
    response; [login_unfold] below shows that [login] is the search
    followed by these statements. *)
Definition login_after_search (server : option Server) (auto_bind : auto_bind_t)
    (password : str) (response : list response_entry) : M (str * str * str) :=
  let response := List.filter is_user_object response in
  if negb (nonempty response) then
    raise (LDAPUserLoginError (lit "LDAP login not found"))
  else if (1 <? length response)%nat then
    raise (LDAPUserLoginError (lit "LDAP login could not be determined."))
  else
  match response with
  | [] => raise (IndexError (lit "list index out of range"))
  | r0 :: _ =>
  match raw_attributes r0 with
  | None => raise (AttributeError (lit "'NoneType' object has no attribute 'get'"))
  | Some raw_attributes =>
  if negb (truthy (raw_attributes !! USERNAME_ATTRIBUTE) &&
           truthy (raw_attributes !! EMAIL_ATTRIBUTE) &&
           truthy (raw_attributes !! FULL_NAME_ATTRIBUTE)) then
    raise (LDAPUserLoginError (lit "LDAP login is invalid."))
  else
  username <- decode_first (raw_attributes !! USERNAME_ATTRIBUTE) ;;
  email <- decode_first (raw_attributes !! EMAIL_ATTRIBUTE) ;;
  full_name <- decode_first (raw_attributes !! FULL_NAME_ATTRIBUTE) ;;
  _ <- try_except
         (dn <- recode_dn (dn r0) ;;
          ldap3_Connection
            {| c_server := server; c_auto_bind := auto_bind;
               c_client_strategy := SYNC; c_check_names := true;
               c_authentication := SIMPLE;
               c_user := Some dn; c_password := Some password |})
         (fun e =>
            let error := lit "LDAP bind failed: " ++ exn_str e in
            raise (LDAPUserLoginError error)) ;;
  ret (username, email, full_name)
  end
  end.

End Connector.

(** ** Reading a trace *)

(** The [Connection(...)] calls of a trace, each with the text of the
    exception it raised, if any. *)
Definition connections (t : list event) : list (Connection * option str) :=
  omap (fun e => match e with EvConnection c o => Some (c, o) | _ => None end) t.

(** The searches of a trace. *)
Definition searches (t : list event) : list search_args :=
  omap (fun e => match e with EvSearch _ a _ => Some a | _ => None end) t.

(** The sessions a trace opened (a [Connection(...)] that did not
    raise) and the sessions it released ([unbind]). *)
Definition opened (t : list event) : list Connection :=
  omap (fun e => match e with EvConnection c None => Some c | _ => None end) t.

Definition released (t : list event) : list Connection :=
  omap (fun e => match e with EvUnbind c => Some c | _ => None end) t.

(** ** The specification's reading of a claim *)

(** An attribute has a non-empty value: one of its values is a
    non-empty octet string. *)
Definition spec_has_nonempty_value (v : option (list (list Z))) : bool :=
  match v with
  | Some values => existsb nonempty values
  | None => false
  end.

(** ** Example settings and directories *)

(** No attribute set: every constant takes its default. *)
Definition no_settings : Settings :=
  {| LDAP_SERVER := None; LDAP_PORT := None; LDAP_SEARCH_BASE := None;
     LDAP_SEARCH_FILTER_ADDITIONAL := None; LDAP_BIND_DN := None;
     LDAP_BIND_PASSWORD := None; LDAP_USERNAME_ATTRIBUTE := None;
     LDAP_EMAIL_ATTRIBUTE := None; LDAP_FULL_NAME_ATTRIBUTE := None;
     LDAP_TLS_CERTS := None; LDAP_START_TLS := None |}.

(** Scenario A of the specification. *)
Definition example_settings : Settings :=
  {| LDAP_SERVER := Some (lit "ldaps://ldap.example.com");
     LDAP_PORT := Some (PortInt 636);
     LDAP_SEARCH_BASE := Some (lit "dc=example,dc=com");
     LDAP_SEARCH_FILTER_ADDITIONAL := Some (lit "(objectClass=person)");
     LDAP_BIND_DN := Some (lit "cn=taiga,dc=example,dc=com");
     LDAP_BIND_PASSWORD := Some (lit "service");
     LDAP_USERNAME_ATTRIBUTE := Some (lit "uid");
     LDAP_EMAIL_ATTRIBUTE := Some (lit "mail");
     LDAP_FULL_NAME_ATTRIBUTE := Some (lit "displayName");
     LDAP_TLS_CERTS := None; LDAP_START_TLS := Some true |}.

(** A bind DN with the placeholder. *)
Definition templated_settings : Settings :=
  {| LDAP_SERVER := None; LDAP_PORT := None;
     LDAP_SEARCH_BASE := Some (lit "dc=example,dc=com");
     LDAP_SEARCH_FILTER_ADDITIONAL := None;
     LDAP_BIND_DN := Some (lit "uid=<username>,ou=people,dc=example,dc=com");
     LDAP_BIND_PASSWORD := None; LDAP_USERNAME_ATTRIBUTE := None;
     LDAP_EMAIL_ATTRIBUTE := None; LDAP_FULL_NAME_ATTRIBUTE := None;
     LDAP_TLS_CERTS := None; LDAP_START_TLS := None |}.

Definition attributes_of (uid mail name : list (list Z))
  : gmap (list Z) (list (list Z)) :=
  {[ lit "uid" := uid; lit "mail" := mail; lit "displayName" := name ]}.

Definition user_entry (d : list Z) (uid mail name : list (list Z)) : response_entry :=
  {| dn := Some d; raw_attributes := Some (attributes_of uid mail name) |}.

(** What [_get_auth_details] returns when no bind DN is set. *)
Definition anonymous : auth_details :=
  {| d_user := None; d_password := None; d_authentication := ANONYMOUS |}.

(** What it returns for the fixed bind DN of [example_settings]. *)
Definition service_account : auth_details :=
  {| d_user := Some (lit "cn=taiga,dc=example,dc=com");
     d_password := Some (lit "service"); d_authentication := SIMPLE |}.

Definition alice : response_entry :=
  user_entry (lit "uid=alice,ou=people,dc=example,dc=com")
    [lit "alice"] [lit "alice@example.com"] [lit "Alice A"].

Definition bob : response_entry :=
  user_entry (lit "uid=bob,ou=people,dc=example,dc=com")
    [lit "bob"] [lit "shared@example.com"] [lit "Bob B"].

Definition carol : response_entry :=
  user_entry (lit "uid=carol,ou=people,dc=example,dc=com")
    [lit "carol"] [lit "shared@example.com"] [lit "Carol C"].

(** An entry without a mail address. *)
Definition dave : response_entry :=
  user_entry (lit "uid=dave,ou=people,dc=example,dc=com")
    [lit "dave"] [] [lit "Dave D"].

(** An entry whose [uid] has one value, the empty octet string. *)
Definition blank : response_entry :=
  user_entry (lit "cn=blank,ou=people,dc=example,dc=com")
    [[]] [lit "blank@example.com"] [lit "Blank"].

(** An entry whose [uid] is not UTF-8. *)
Definition latin : response_entry :=
  user_entry (lit "cn=latin,ou=people,dc=example,dc=com")
    [[255]] [lit "latin@example.com"] [lit "Latin"].

(** An entry whose distinguished name holds a lone surrogate. *)
Definition lone : response_entry :=
  user_entry [55296] [lit "lone"] [lit "lone@example.com"] [lit "Lone"].

(** A search reference: no attributes, no distinguished name. *)
Definition referral : response_entry := {| dn := None; raw_attributes := None |}.

(** A directory standing in for ldap3, as a test double would:
    [Server] raises [server_error] if given; a bind succeeds when
    anonymous or when its password is [good], whatever server value it
    is given; a search answers [answer]. *)
Definition directory (server_error : option (list Z)) (good : list Z)
    (answer : list Z + list response_entry) : Ldap3 :=
  {| Server_raises := fun _ => server_error;
     Connection_raises := fun _ c =>
       match c_authentication c, c_password c with
       | ANONYMOUS, _ => None
       | SIMPLE, Some p =>
           if bool_decide (p = good) then None else Some (lit "invalidCredentials")
       | SIMPLE, None => Some (lit "password is mandatory in simple bind")
       end;
     search_outcome := fun _ _ _ => answer |}.

(** ** The stages of [login] as pure functions *)

(** The value or exception of [_get_auth_details]. *)
Definition auth_outcome (settings : Settings) (username_sanitized : list Z)
  : exn + auth_details :=
  snd (_get_auth_details settings username_sanitized []).

(** [auto_bind] as [login] computes it. *)
Definition auto_bind_mode (settings : Settings) : auto_bind_t :=
  if START_TLS settings then AUTO_BIND_TLS_BEFORE_BIND else AUTO_BIND_NO_TLS.

(** The first [Connection] of [login], for the search; its server is
    the value of [_get_server], Python's [None]. *)
Definition search_session (settings : Settings) (d : auth_details) : Connection :=
  {| c_server := None; c_auto_bind := auto_bind_mode settings;
     c_client_strategy := SYNC; c_check_names := true;
     c_authentication := d_authentication d;
     c_user := d_user d; c_password := d_password d |}.

(** The second [Connection] of [login], binding as the entry found. *)
Definition verification_session (settings : Settings) (dn password : list Z)
  : Connection :=
  {| c_server := None; c_auto_bind := auto_bind_mode settings;
     c_client_strategy := SYNC; c_check_names := true;
     c_authentication := SIMPLE;
     c_user := Some dn; c_password := Some password |}.

(** The filter [login] builds around a sanitized value. *)
Definition filter_for (settings : Settings) (value : list Z) : list Z :=
  let search_filter :=
    lit "(|(" ++ USERNAME_ATTRIBUTE settings ++ lit "=" ++ value
    ++ lit ")(" ++ EMAIL_ATTRIBUTE settings ++ lit "=" ++ value ++ lit "))" in
  if nonempty (SEARCH_FILTER_ADDITIONAL settings)
  then lit "(&" ++ search_filter ++ SEARCH_FILTER_ADDITIONAL settings ++ lit ")"
  else search_filter.

(** The arguments of the search of [login]. *)
Definition search_request (settings : Settings) (username_or_email : list Z)
  : search_args :=
  {| search_base := SEARCH_BASE settings;
     search_filter := filter_for settings (escape_filter_chars username_or_email);
     search_scope := SUBTREE;
     attributes := [USERNAME_ATTRIBUTE settings; EMAIL_ATTRIBUTE settings;
                    FULL_NAME_ATTRIBUTE settings];
     paged_size := 5 |}.

(** The value or exception of [decode_first] and of [recode_dn],
    neither of which calls the directory. *)
Definition first_value_text (v : option (list (list Z))) : exn + list Z :=
  snd (decode_first v []).

Definition dn_text (d : option (list Z)) : exn + list Z :=
  snd (recode_dn d []).

(** The trace of a run that reached the search with outcome [o]. *)
Definition searched (settings : Settings) (c : Connection) (a : search_args)
    (o : list Z + list response_entry) : list event :=
  [EvServer (server_object settings) None; EvConnection c None; EvSearch c a o].

(** The traces and results of [login], by the stage a run ends in:
    the [Server] constructor, [_get_auth_details], the search session,
    the search, the validation of the response, the verification bind. *)
Inductive stage (settings : Settings) (username_or_email password : list Z)
  : list event -> exn + (list Z * list Z * list Z) -> Prop :=
  | stage_server cause :
      stage settings username_or_email password
        [EvServer (server_object settings) (Some cause)]
        (inl (LDAPConnectionError (lit "Error connecting to LDAP server: " ++ cause)))
  | stage_auth e :
      auth_outcome settings (escape_filter_chars username_or_email) = inl e ->
      stage settings username_or_email password
        [EvServer (server_object settings) None]
        (inl (LDAPConnectionError
                (lit "Error connecting to LDAP server: " ++ exn_str e)))
  | stage_session d cause :
      stage settings username_or_email password
        [EvServer (server_object settings) None;
         EvConnection (search_session settings d) (Some cause)]
        (inl (LDAPConnectionError (lit "Error connecting to LDAP server: " ++ cause)))
  | stage_search d cause :
      stage settings username_or_email password
        (searched settings (search_session settings d)
           (search_request settings username_or_email) (inl cause))
        (inl (LDAPUserLoginError (lit "LDAP login incorrect: " ++ cause)))
  | stage_validation d rs e :
      stage settings username_or_email password
        (searched settings (search_session settings d)
           (search_request settings username_or_email) (inr rs))
        (inl e)
  | stage_bind d rs dn o r :
      stage settings username_or_email password
        (searched settings (search_session settings d)
           (search_request settings username_or_email) (inr rs)
         ++ [EvConnection (verification_session settings dn password) o])
        r.


(** ** Letter case *)

(** [c] is the character [x] or, when [x] is a lower-case ASCII
    letter, its upper-case form. *)
Definition same_letter (c x : Z) : Prop :=
  c = x \/ (97 <= x <= 122 /\ c = x - 32).

(** A server written with a scheme in mixed case. *)
Definition mixed_case_settings : Settings :=
  {| LDAP_SERVER := Some (lit "LdapS://Ldap.Example.Com");
     LDAP_PORT := Some (PortInt 636); LDAP_SEARCH_BASE := None;
     LDAP_SEARCH_FILTER_ADDITIONAL := None; LDAP_BIND_DN := None;
     LDAP_BIND_PASSWORD := None; LDAP_USERNAME_ATTRIBUTE := None;
     LDAP_EMAIL_ATTRIBUTE := None; LDAP_FULL_NAME_ATTRIBUTE := None;
     LDAP_TLS_CERTS := None; LDAP_START_TLS := None |}.

(** ** Reading a trace, further *)

(** The library call an event records. *)
Inductive event_kind := CallServer | CallConnection | CallSearch | CallUnbind.

Definition kind_of (e : event) : event_kind :=
  match e with
  | EvServer _ _ => CallServer
  | EvConnection _ _ => CallConnection
  | EvSearch _ _ _ => CallSearch
  | EvUnbind _ => CallUnbind
  end.

(** Did the call raise? *)
Definition event_raised (e : event) : bool :=
  match e with
  | EvServer _ (Some _) | EvConnection _ (Some _) | EvSearch _ _ (inl _) => true
  | _ => false
  end.

(** A directory that cannot bind without a server: [Connection]
    raises when its server is Python's [None], and is that of
    [directory] otherwise. *)
Definition serverless_refused (good : list Z)
    (answer : list Z + list response_entry) : Ldap3 :=
  {| Server_raises := fun _ => None;
     Connection_raises := fun t c =>
       match c_server c with
       | None => Some (lit "'NoneType' object has no attribute 'candidate_addresses'")
       | Some _ => Connection_raises (directory None good answer) t c
       end;
     search_outcome := fun _ _ _ => answer |}.

(** * Properties *)

(** ** Strings *)

Lemma replace_single (a : Z) (new s : list Z) :
  replace [a] new s = flat_map (fun c => if c =? a then new else [c]) s.
Proof.
  unfold replace. induction s as [|c s IH]; [reflexivity|].
  cbn [replace_from startswith flat_map length Nat.pred].
  rewrite andb_true_r. destruct (c =? a); cbn; now rewrite IH.
Qed.

Lemma flat_map_flat_map {A B C} (f : A -> list B) (g : B -> list C) (l : list A) :
  flat_map g (flat_map f l) = flat_map (fun x => flat_map g (f x)) l.
Proof.
  induction l as [|x l IH]; [reflexivity|].
  cbn [flat_map]. now rewrite flat_map_app, IH.
Qed.

(** The five replacements amount to one pass that escapes each
    character on its own: no replacement text contains a character
    that a later replacement looks for. *)
Lemma escape_filter_chars_one_pass (text : list Z) :
  escape_filter_chars text = flat_map escape_char text.
Proof.
  unfold escape_filter_chars.
  change (lit "\") with [92]. change (lit "*") with [42].
  change (lit "(") with [40]. change (lit ")") with [41].
  rewrite !replace_single, !flat_map_flat_map.
  apply flat_map_ext. intros c. unfold escape_char.
  change (lit "\5c") with [92; 53; 99]. change (lit "\2a") with [92; 50; 97].
  change (lit "\28") with [92; 50; 56]. change (lit "\29") with [92; 50; 57].
  change (lit "\00") with [92; 48; 48].
  destruct (Z.eqb_spec c 92) as [->|?]; [reflexivity|].
  cbn [flat_map app].
  destruct (Z.eqb_spec c 42) as [->|?]; [reflexivity|].
  cbn [flat_map app].
  destruct (Z.eqb_spec c 40) as [->|?]; [reflexivity|].
  cbn [flat_map app].
  destruct (Z.eqb_spec c 41) as [->|?]; [reflexivity|].
  cbn [flat_map app].
  destruct (Z.eqb_spec c 0) as [->|?]; reflexivity.
Qed.

Lemma escape_char_no_meta (c : Z) :
  forallb (fun x => negb (is_filter_meta x)) (escape_char c) = true.
Proof.
  unfold escape_char, is_filter_meta.
  destruct (Z.eqb_spec c 92); [reflexivity|].
  destruct (Z.eqb_spec c 42); [reflexivity|].
  destruct (Z.eqb_spec c 40); [reflexivity|].
  destruct (Z.eqb_spec c 41); [reflexivity|].
  destruct (Z.eqb_spec c 0); [reflexivity|].
  cbn. rewrite andb_true_r.
  repeat match goal with
         | H : c <> ?k |- _ => apply Z.eqb_neq in H; rewrite H; clear H
         end.
  reflexivity.
Qed.

Lemma escape_filter_chars_no_meta (text : list Z) :
  forallb (fun x => negb (is_filter_meta x)) (escape_filter_chars text) = true.
Proof.
  rewrite escape_filter_chars_one_pass.
  induction text as [|c text IH]; [reflexivity|].
  cbn [flat_map]. rewrite forallb_app, escape_char_no_meta, IH. reflexivity.
Qed.

(** Read back by the server, the escaped text is the original text,
    character for character, and ends where the enclosing filter
    closes it. *)
Lemma read_value_escape (text rest : list Z) :
  read_value (escape_filter_chars text ++ 41 :: rest) = Some (map Lit text, rest).
Proof.
  rewrite escape_filter_chars_one_pass.
  induction text as [|c text IH]; [reflexivity|].
  cbn [flat_map map]. rewrite <- app_assoc.
  remember (flat_map escape_char text ++ 41 :: rest) as tail eqn:E. clear E.
  unfold escape_char.
  destruct (Z.eqb_spec c 92) as [->|N1]; [cbn; now rewrite IH|].
  destruct (Z.eqb_spec c 42) as [->|N2]; [cbn; now rewrite IH|].
  destruct (Z.eqb_spec c 40) as [->|N3]; [cbn; now rewrite IH|].
  destruct (Z.eqb_spec c 41) as [->|N4]; [cbn; now rewrite IH|].
  destruct (Z.eqb_spec c 0) as [->|N5]; [cbn; now rewrite IH|].
  cbn [app read_value].
  apply Z.eqb_neq in N1, N2, N3, N4, N5.
  rewrite N1, N2, N3, N4, N5. cbn [orb].
  now rewrite IH.
Qed.

(** ** UTF-8 *)

Ltac decide_tests :=
  repeat match goal with
         | |- context [?a <=? ?b] =>
             destruct (Z.leb_spec a b);
             try (exfalso; Z.div_mod_to_equations; lia)
         | |- context [?a <? ?b] =>
             destruct (Z.ltb_spec a b);
             try (exfalso; Z.div_mod_to_equations; lia)
         end.

Lemma utf8_decode_encode_cp (c : Z) (b rest : list Z) :
  utf8_encode_cp c = Some b ->
  utf8_decode (b ++ rest) = cons c <$> utf8_decode rest.
Proof.
  unfold utf8_encode_cp, is_surrogate.
  destruct (Z.ltb_spec c 0); [discriminate|].
  destruct (Z.ltb_spec c 128).
  { intros [= <-]. cbn [app utf8_decode]. decide_tests. reflexivity. }
  destruct (Z.ltb_spec c 2048).
  { intros [= <-]. cbn [app utf8_decode]. unfold is_cont.
    decide_tests. cbn [andb]. do 2 f_equal. Z.div_mod_to_equations; lia. }
  destruct (Z.ltb_spec c 65536).
  { destruct (Z.leb_spec 55296 c), (Z.leb_spec c 57343); cbn [andb];
      try discriminate; intros [= <-]; cbn [app utf8_decode];
      unfold is_cont, is_surrogate; cbv zeta;
      decide_tests; cbn [andb negb]; do 2 f_equal; Z.div_mod_to_equations; lia. }
  destruct (Z.ltb_spec c 1114112); [|discriminate].
  intros [= <-]. cbn [app utf8_decode]. unfold is_cont. cbv zeta.
  decide_tests. cbn [andb]. do 2 f_equal. Z.div_mod_to_equations; lia.
Qed.

(** Encoding a text and decoding the octets gives the text back. *)
Lemma utf8_decode_encode (s : list Z) (b : list Z) :
  utf8_encode s = Some b -> utf8_decode b = Some s.
Proof.
  revert b. induction s as [|c s IH]; intros b.
  - intros [= <-]. reflexivity.
  - cbn [utf8_encode].
    destruct (utf8_encode_cp c) as [bc|] eqn:Ec; [|discriminate].
    destruct (utf8_encode s) as [bs|]; [|discriminate].
    intros [= <-]. rewrite (utf8_decode_encode_cp _ _ _ Ec), (IH bs eq_refl).
    reflexivity.
Qed.

Example escape_filter_chars_ex :
  escape_filter_chars (lit "a)(uid=*") = lit "a\29\28uid=\2a".
Proof. reflexivity. Qed.

Example replace_ex :
  replace (lit "<username>") (lit "bob") (lit "uid=<username>,o=<username>x")
  = lit "uid=bob,o=bobx".
Proof. reflexivity. Qed.

Example utf8_ex : utf8_decode [195; 169; 226; 130; 172] = Some [233; 8364]
  /\ utf8_encode [233; 8364] = Some [195; 169; 226; 130; 172]
  /\ utf8_encode [55296] = None /\ utf8_decode [255] = None.
Proof. repeat split; reflexivity. Qed.


Opaque lit.
(** ** The run of [login] *)

Lemma get_auth_details_run (settings : Settings) (v : list Z) (t : list event) :
  _get_auth_details settings v t = (t, auth_outcome settings v).
Proof.
  unfold auth_outcome, _get_auth_details.
  destruct (nonempty (BIND_DN settings) && contains (lit "<username>") (BIND_DN settings));
    [reflexivity|].
  destruct (nonempty (BIND_DN settings)); reflexivity.
Qed.

Lemma decode_first_run (v : option (list (list Z))) (t : list event) :
  decode_first v t = (t, first_value_text v).
Proof.
  unfold first_value_text, decode_first.
  destruct v as [[|b l]|]; try reflexivity.
  destruct (utf8_decode b); reflexivity.
Qed.

Lemma recode_dn_run (d : option (list Z)) (t : list event) :
  recode_dn d t = (t, dn_text d).
Proof.
  unfold dn_text, recode_dn.
  destruct d as [d|]; [|reflexivity].
  destruct (utf8_encode d) as [b|]; [|reflexivity].
  destruct (utf8_decode b); reflexivity.
Qed.

(** A distinguished name that UTF-8 can encode comes back unchanged. *)
Lemma dn_text_encodable (d b : list Z) :
  utf8_encode d = Some b -> dn_text (Some d) = inr d.
Proof.
  intros E. unfold dn_text, recode_dn. rewrite E, (utf8_decode_encode _ _ E).
  reflexivity.
Qed.

Lemma dn_text_surrogate (d : list Z) :
  utf8_encode d = None -> dn_text (Some d) = inl UnicodeEncodeError.
Proof. intros E. unfold dn_text, recode_dn. now rewrite E. Qed.

Section Login.

Context (ldap : Ldap3) (settings : Settings).
Context (username_or_email password : list Z).

Local Abbreviation run := (login ldap settings username_or_email password).
Local Abbreviation U := (USERNAME_ATTRIBUTE settings).
Local Abbreviation E := (EMAIL_ATTRIBUTE settings).
Local Abbreviation F := (FULL_NAME_ATTRIBUTE settings).

(** [login] is the search followed by [login_after_search]. *)
Lemma login_unfold :
  run =
  (server <- _get_server ldap settings ;;
   c <- try_except
          (d <- _get_auth_details settings (escape_filter_chars username_or_email) ;;
           ldap3_Connection ldap
             {| c_server := server; c_auto_bind := auto_bind_mode settings;
                c_client_strategy := SYNC; c_check_names := true;
                c_authentication := d_authentication d;
                c_user := d_user d; c_password := d_password d |})
          (fun e =>
             raise (LDAPConnectionError
                      (lit "Error connecting to LDAP server: " ++ exn_str e))) ;;
   response <- try_except
                 (ldap3_search ldap c (search_request settings username_or_email))
                 (fun e =>
                    raise (LDAPUserLoginError
                             (lit "LDAP login incorrect: " ++ exn_str e))) ;;
   login_after_search ldap settings server (auto_bind_mode settings) password response).
Proof. reflexivity. Qed.

(** The run up to the search, by the answers of the directory. *)
Lemma login_run :
  run [] =
  let s := server_object settings in
  match Server_raises ldap s with
  | Some cause =>
      ([EvServer s (Some cause)],
       inl (LDAPConnectionError (lit "Error connecting to LDAP server: " ++ cause)))
  | None =>
      match auth_outcome settings (escape_filter_chars username_or_email) with
      | inl e =>
          ([EvServer s None],
           inl (LDAPConnectionError
                  (lit "Error connecting to LDAP server: " ++ exn_str e)))
      | inr d =>
          let c := search_session settings d in
          match Connection_raises ldap [EvServer s None] c with
          | Some cause =>
              ([EvServer s None; EvConnection c (Some cause)],
               inl (LDAPConnectionError
                      (lit "Error connecting to LDAP server: " ++ cause)))
          | None =>
              let a := search_request settings username_or_email in
              match search_outcome ldap [EvServer s None; EvConnection c None] c a with
              | inl cause =>
                  (searched settings c a (inl cause),
                   inl (LDAPUserLoginError (lit "LDAP login incorrect: " ++ cause)))
              | inr rs =>
                  login_after_search ldap settings None (auto_bind_mode settings)
                    password rs (searched settings c a (inr rs))
              end
          end
      end
  end.
Proof.
  rewrite login_unfold. cbv zeta.
  unfold bind at 1, _get_server, bind, try_except, ldap3_Server, ret, raise.
  destruct (Server_raises ldap (server_object settings)) as [cause|]; [reflexivity|].
  cbn [app]. rewrite get_auth_details_run.
  destruct (auth_outcome settings (escape_filter_chars username_or_email)) as [e|d];
    [reflexivity|].
  unfold ldap3_Connection. fold (search_session settings d).
  destruct (Connection_raises ldap _ (search_session settings d)) as [cause|];
    [reflexivity|].
  cbn [app]. unfold ldap3_search.
  destruct (search_outcome ldap _ (search_session settings d) _) as [cause|rs];
    reflexivity.
Qed.

(** The run after the search, by the response. *)
Lemma login_after_search_run (server : option Server) (ab : auto_bind_t)
    (rs : list response_entry) (t : list event) :
  login_after_search ldap settings server ab password rs t =
  match List.filter is_user_object rs with
  | [] => (t, inl (LDAPUserLoginError (lit "LDAP login not found")))
  | _ :: _ :: _ =>
      (t, inl (LDAPUserLoginError (lit "LDAP login could not be determined.")))
  | [r0] =>
      match raw_attributes r0 with
      | None =>
          (t, inl (AttributeError (lit "'NoneType' object has no attribute 'get'")))
      | Some raw =>
          if truthy (raw !! U) && truthy (raw !! E) && truthy (raw !! F) then
            match first_value_text (raw !! U) with
            | inl e => (t, inl e)
            | inr username =>
            match first_value_text (raw !! E) with
            | inl e => (t, inl e)
            | inr email =>
            match first_value_text (raw !! F) with
            | inl e => (t, inl e)
            | inr full_name =>
            match dn_text (dn r0) with
            | inl e =>
                (t, inl (LDAPUserLoginError (lit "LDAP bind failed: " ++ exn_str e)))
            | inr d =>
                let v := {| c_server := server; c_auto_bind := ab;
                            c_client_strategy := SYNC; c_check_names := true;
                            c_authentication := SIMPLE;
                            c_user := Some d; c_password := Some password |} in
                match Connection_raises ldap t v with
                | Some cause =>
                    (t ++ [EvConnection v (Some cause)],
                     inl (LDAPUserLoginError (lit "LDAP bind failed: " ++ cause)))
                | None => (t ++ [EvConnection v None], inr (username, email, full_name))
                end
            end end end end
          else (t, inl (LDAPUserLoginError (lit "LDAP login is invalid.")))
      end
  end.
Proof.
  unfold login_after_search. cbv zeta.
  destruct (List.filter is_user_object rs) as [|r0 [|r1 l]]; try reflexivity.
  cbn [nonempty negb length Nat.ltb Nat.leb].
  destruct (raw_attributes r0) as [raw|]; [|reflexivity].
  destruct (truthy (raw !! U) && truthy (raw !! E) && truthy (raw !! F));
    [|reflexivity].
  cbn [negb]. unfold bind, try_except, ret, raise.
  rewrite decode_first_run.
  destruct (first_value_text (raw !! U)); [reflexivity|]. cbv beta iota.
  rewrite decode_first_run.
  destruct (first_value_text (raw !! E)); [reflexivity|]. cbv beta iota.
  rewrite decode_first_run.
  destruct (first_value_text (raw !! F)); [reflexivity|]. cbv beta iota.
  rewrite recode_dn_run.
  destruct (dn_text (dn r0)); [reflexivity|]. cbv beta iota.
  unfold ldap3_Connection.
  destruct (Connection_raises ldap t _); reflexivity.
Qed.

End Login.

Ltac trace_cases H :=
  cbn [fst In app searched] in H;
  repeat match type of H with
         | _ \/ _ => destruct H as [H|H]
         | False => destruct H
         | EvSearch _ _ _ = EvSearch _ _ _ => injection H as <- <- <-
         | _ = _ => discriminate H
         end.

Section Reached.

Context (ldap : Ldap3) (settings : Settings).
Context (username_or_email password : list Z).

Local Abbreviation run := (login ldap settings username_or_email password).

(** After the search the trace grows by at most one [Connection]. *)
Lemma login_after_search_trace (server : option Server) (ab : auto_bind_t)
    (rs : list response_entry) (t : list event) :
  fst (login_after_search ldap settings server ab password rs t) = t \/
  exists v o,
    fst (login_after_search ldap settings server ab password rs t)
    = t ++ [EvConnection v o].
Proof.
  rewrite login_after_search_run.
  destruct (List.filter is_user_object rs) as [|r0 [|r1 l]]; try (left; reflexivity).
  destruct (raw_attributes r0) as [raw|]; [|left; reflexivity].
  destruct (truthy _ && truthy _ && truthy _); [|left; reflexivity].
  destruct (first_value_text _); [left; reflexivity|].
  destruct (first_value_text _); [left; reflexivity|].
  destruct (first_value_text _); [left; reflexivity|].
  destruct (dn_text _); [left; reflexivity|].
  cbv zeta. destruct (Connection_raises _ _ _); right; eauto.
Qed.

(** A search in the trace of a run tells how the run got there. *)
Lemma search_event_inv (c : Connection) (a : search_args)
    (o : list Z + list response_entry) :
  In (EvSearch c a o) (trace run) ->
  exists d,
    Server_raises ldap (server_object settings) = None /\
    auth_outcome settings (escape_filter_chars username_or_email) = inr d /\
    c = search_session settings d /\
    Connection_raises ldap [EvServer (server_object settings) None] c = None /\
    a = search_request settings username_or_email /\
    search_outcome ldap
      [EvServer (server_object settings) None; EvConnection c None] c a = o.
Proof.
  unfold trace. rewrite login_run. cbv zeta.
  destruct (Server_raises ldap _) as [cause|] eqn:HS; [intros H; trace_cases H|].
  destruct (auth_outcome settings _) as [e|d] eqn:HA; [intros H; trace_cases H|].
  destruct (Connection_raises ldap _ _) as [cause|] eqn:HC; [intros H; trace_cases H|].
  destruct (search_outcome ldap _ _ _) as [cause|rs] eqn:HO.
  - intros H; trace_cases H. exists d. repeat split; assumption.
  - intros H.
    destruct (login_after_search_trace None (auto_bind_mode settings) rs
                (searched settings (search_session settings d)
                   (search_request settings username_or_email) (inr rs)))
      as [Ht|(v & o' & Ht)]; rewrite Ht in H.
    + trace_cases H. exists d. repeat split; assumption.
    + apply in_app_or in H. destruct H as [H|H]; trace_cases H.
      exists d. repeat split; assumption.
Qed.

(** A run whose search was answered goes on with the statements after
    the search. *)
Lemma run_after_search (c : Connection) (a : search_args)
    (rs : list response_entry) :
  In (EvSearch c a (inr rs)) (trace run) ->
  run [] = login_after_search ldap settings None (auto_bind_mode settings)
             password rs (searched settings c a (inr rs)).
Proof.
  intros H. destruct (search_event_inv _ _ _ H) as (d & HS & HA & -> & HC & -> & HO).
  rewrite login_run. cbv zeta. rewrite HS, HA, HC, HO. reflexivity.
Qed.

(** A run whose search raised ends there. *)
Lemma run_search_raised (c : Connection) (a : search_args) (cause : list Z) :
  In (EvSearch c a (inl cause)) (trace run) ->
  run [] = (searched settings c a (inl cause),
            inl (LDAPUserLoginError (lit "LDAP login incorrect: " ++ cause))).
Proof.
  intros H. destruct (search_event_inv _ _ _ H) as (d & HS & HA & -> & HC & -> & HO).
  rewrite login_run. cbv zeta. rewrite HS, HA, HC, HO. reflexivity.
Qed.

End Reached.

(** ** The filter as the server parses it *)

Lemma lit_or_open : lit "(|(" = [40; 124; 40].
Proof. vm_compute. reflexivity. Qed.
Lemma lit_and_open : lit "(&" = [40; 38].
Proof. vm_compute. reflexivity. Qed.
Lemma lit_eq : lit "=" = [61].
Proof. vm_compute. reflexivity. Qed.
Lemma lit_next : lit ")(" = [41; 40].
Proof. vm_compute. reflexivity. Qed.
Lemma lit_close2 : lit "))" = [41; 41].
Proof. vm_compute. reflexivity. Qed.
Lemma lit_close : lit ")" = [41].
Proof. vm_compute. reflexivity. Qed.

Lemma is_attr_char_neq (c : Z) :
  is_attr_char c = true ->
  (c =? 40) = false /\ (c =? 41) = false /\ (c =? 61) = false /\
  (c =? 38) = false /\ (c =? 124) = false /\ (c =? 33) = false.
Proof.
  unfold is_attr_char. intros H. apply negb_true_iff in H.
  repeat (apply orb_false_elim in H; destruct H as [H ?]).
  repeat split; assumption.
Qed.

Lemma read_attr_plain (a rest : list Z) :
  forallb is_attr_char a = true ->
  read_attr (a ++ 61 :: rest) = Some (a, rest).
Proof.
  induction a as [|c a IH]; cbn [forallb app read_attr]; intros H.
  - reflexivity.
  - apply andb_prop in H as [Hc Ha].
    destruct (is_attr_char_neq c Hc) as (_ & _ & -> & _).
    rewrite Hc, (IH Ha). reflexivity.
Qed.

(** An item around an escaped text parses as an equality match on the
    text itself. *)
Lemma parse_item (n : nat) (a text rest : list Z) :
  plain_name a = true ->
  parse_filter (S n) (40 :: a ++ 61 :: escape_filter_chars text ++ 41 :: rest)
  = Some (FMatch a (map Lit text), rest).
Proof.
  unfold plain_name. destruct a as [|c a]; [discriminate|].
  cbn [nonempty andb]. intros H.
  pose proof (read_attr_plain (c :: a) (escape_filter_chars text ++ 41 :: rest) H) as R.
  cbn [forallb] in H. apply andb_prop in H as [Hc _].
  destruct (is_attr_char_neq c Hc) as (_ & _ & _ & H1 & H2 & H3).
  cbn [parse_filter app]. cbn [app] in R.
  change (40 =? 40) with true. cbn [negb].
  rewrite H1, H2, H3, R, read_value_escape. reflexivity.
Qed.

(** More fuel does not change what was parsed. *)
Lemma parse_fuel_mono (n : nat) :
  (forall s r m, parse_filter n s = Some r -> (n <= m)%nat -> parse_filter m s = Some r)
  /\ (forall s r m, parse_filters n s = Some r -> (n <= m)%nat -> parse_filters m s = Some r).
Proof.
  induction n as [|n [IHf IHl]]; [split; intros; discriminate|].
  split; intros s r m H Hm; (destruct m as [|m]; [lia|]);
    assert (Hnm : (n <= m)%nat) by lia.
  - cbn [parse_filter] in *.
    destruct s as [|c0 [|c1 s']]; try discriminate.
    destruct (negb (c0 =? 40)); [discriminate|].
    destruct (c1 =? 38).
    { destruct (parse_filters n s') as [[l rest]|] eqn:P; [|discriminate].
      now rewrite (IHl _ _ _ P Hnm). }
    destruct (c1 =? 124).
    { destruct (parse_filters n s') as [[l rest]|] eqn:P; [|discriminate].
      now rewrite (IHl _ _ _ P Hnm). }
    destruct (c1 =? 33).
    { destruct (parse_filter n s') as [[f rest]|] eqn:P; [|discriminate].
      now rewrite (IHf _ _ _ P Hnm). }
    assumption.
  - cbn [parse_filters] in *.
    destruct s as [|c s']; [discriminate|].
    destruct (c =? 41); [assumption|].
    destruct (parse_filter n (c :: s')) as [[f s1]|] eqn:P; [|discriminate].
    rewrite (IHf _ _ _ P Hnm).
    destruct (parse_filters n s1) as [[l rest]|] eqn:Q; [|discriminate].
    now rewrite (IHl _ _ _ Q Hnm).
Qed.

Section Parsed.

Context (settings : Settings) (username_or_email : list Z).

Local Abbreviation U := (USERNAME_ATTRIBUTE settings).
Local Abbreviation E := (EMAIL_ATTRIBUTE settings).

(** The disjunction of [login] parses as two equality matches on the
    input. *)
Lemma parse_disjunction (n : nat) (rest : list Z) :
  plain_name U = true -> plain_name E = true ->
  parse_filter (4 + n)
    ((lit "(|(" ++ U ++ lit "=" ++ escape_filter_chars username_or_email
      ++ lit ")(" ++ E ++ lit "=" ++ escape_filter_chars username_or_email
      ++ lit "))") ++ rest)
  = Some (FOr [FMatch U (map Lit username_or_email);
               FMatch E (map Lit username_or_email)], rest).
Proof.
  intros HU HE.
  rewrite lit_or_open, lit_eq, lit_next, lit_close2.
  repeat rewrite <- app_assoc. cbn [app Nat.add].
  cbn [parse_filter]. change (40 =? 40) with true. change (124 =? 38) with false.
  change (124 =? 124) with true. cbn [negb].
  cbn [parse_filters]. change (40 =? 41) with false.
  rewrite (parse_item _ U _ _ HU).
  cbn [parse_filters]. change (40 =? 41) with false.
  rewrite (parse_item _ E _ _ HE).
  cbn [parse_filters]. change (41 =? 41) with true. reflexivity.
Qed.

(** Whatever the input, the filter of [login] is read by the server as
    "the user attribute equals the input or the email attribute equals
    the input", in conjunction with the additional filter when one is
    configured: the input never adds, removes or widens a condition. *)
Theorem filter_parses_as_two_equalities :
  plain_name U = true -> plain_name E = true ->
  (SEARCH_FILTER_ADDITIONAL settings = [] ->
   forall n,
     parse_filter (4 + n) (filter_for settings (escape_filter_chars username_or_email))
     = Some (FOr [FMatch U (map Lit username_or_email);
                  FMatch E (map Lit username_or_email)], []))
  /\
  (forall k g,
     nonempty (SEARCH_FILTER_ADDITIONAL settings) = true ->
     (forall rest,
        parse_filter k (SEARCH_FILTER_ADDITIONAL settings ++ rest) = Some (g, rest)) ->
     forall n,
       parse_filter (5 + k + n)
         (filter_for settings (escape_filter_chars username_or_email))
       = Some (FAnd [FOr [FMatch U (map Lit username_or_email);
                          FMatch E (map Lit username_or_email)]; g], [])).
Proof.
  intros HU HE. split.
  - intros Hadd n. unfold filter_for. rewrite Hadd. cbn [nonempty].
    rewrite <- (app_nil_r (lit "(|(" ++ _)). now apply parse_disjunction.
  - intros k g Hadd Hg n. unfold filter_for. rewrite Hadd.
    rewrite lit_and_open, lit_close. cbn [app].
    assert (Hk : exists k', k = S k').
    { destruct k as [|k']; [|now exists k'].
      specialize (Hg []). discriminate Hg. }
    destruct Hk as [k' ->].
    replace (5 + S k' + n)%nat with (S (S (4 + (k' + n))))%nat by lia.
    cbn [parse_filter]. change (40 =? 40) with true. change (38 =? 38) with true.
    cbn [negb].
    destruct (SEARCH_FILTER_ADDITIONAL settings) as [|c add] eqn:EA; [discriminate|].
    assert (Hc : (c =? 41) = false).
    { specialize (Hg []). cbn [parse_filter app] in Hg.
      destruct (add ++ []); [discriminate|].
      destruct (Z.eqb_spec c 40) as [->|]; [reflexivity|discriminate]. }
    remember (c :: add) as fragment eqn:EF.
    cbn [parse_filters].
    rewrite lit_or_open. cbn [app]. change (40 =? 41) with false.
    pose proof (parse_disjunction (k' + n) (fragment ++ [41]) HU HE) as D.
    rewrite lit_or_open in D. cbn [app] in D. rewrite D.
    replace (4 + (k' + n))%nat with (S (S k' + (2 + n)))%nat by lia.
    cbn [parse_filters]. subst fragment. cbn [app]. rewrite Hc.
    pose proof (proj1 (parse_fuel_mono (S k')) _ _ (S k' + (2 + n))%nat
                  (Hg [41]) ltac:(lia)) as G.
    cbn [app] in G. rewrite G.
    replace (S k' + (2 + n))%nat with (S (S (S (k' + n))))%nat by lia.
    cbn [parse_filters]. change (41 =? 41) with true. reflexivity.
Qed.

End Parsed.

(** * The claims *)

(** With the placeholder in the bind DN, [_get_auth_details] raises
    before it has a password to return. *)
Lemma auth_outcome_templated (settings : Settings) (v : list Z) :
  nonempty (BIND_DN settings) && contains (lit "<username>") (BIND_DN settings) = true ->
  auth_outcome settings v = inl (UnboundLocalError (lit "password")).
Proof. intros H. unfold auth_outcome, _get_auth_details. now rewrite H. Qed.

Section Claims.

Context (ldap : Ldap3) (settings : Settings).
Context (username_or_email password : list Z).

Local Abbreviation run := (login ldap settings username_or_email password).
Local Abbreviation U := (USERNAME_ATTRIBUTE settings).
Local Abbreviation E := (EMAIL_ATTRIBUTE settings).
Local Abbreviation F := (FULL_NAME_ATTRIBUTE settings).

(** The check of [login] on an attribute fails when the attribute is
    absent or has no value at all. *)
Lemma truthy_false (v : option (list (list Z))) :
  truthy v = false <-> v = None \/ v = Some [].
Proof.
  destruct v as [[|b l]|]; cbn; split; intros H; try discriminate H; auto;
    destruct H as [H|H]; discriminate H.
Qed.

(** The trace and the result of a run whose search was answered. *)
Lemma run_answered (c : Connection) (a : search_args) (rs : list response_entry) :
  In (EvSearch c a (inr rs)) (trace run) ->
  c_server c = None /\ c_auto_bind c = auto_bind_mode settings /\
  trace run = fst (login_after_search ldap settings None (auto_bind_mode settings)
                     password rs (searched settings c a (inr rs))) /\
  result run = snd (login_after_search ldap settings None (auto_bind_mode settings)
                      password rs (searched settings c a (inr rs))).
Proof.
  intros H. pose proof (run_after_search _ _ _ _ _ _ _ H) as R.
  destruct (search_event_inv _ _ _ _ _ _ _ H) as (d & _ & _ & -> & _).
  unfold trace, result. rewrite R. repeat split; reflexivity.
Qed.

(** The readings of a trace go through concatenation. *)
Lemma connections_app (t1 t2 : list event) :
  connections (t1 ++ t2) = connections t1 ++ connections t2.
Proof. unfold connections. apply omap_app. Qed.

Lemma searches_app (t1 t2 : list event) :
  searches (t1 ++ t2) = searches t1 ++ searches t2.
Proof. unfold searches. apply omap_app. Qed.

Lemma opened_app (t1 t2 : list event) :
  opened (t1 ++ t2) = opened t1 ++ opened t2.
Proof. unfold opened. apply omap_app. Qed.

Lemma released_app (t1 t2 : list event) :
  released (t1 ++ t2) = released t1 ++ released t2.
Proof. unfold released. apply omap_app. Qed.

(** Every run ends in one of the stages. *)
Lemma run_stage :
  stage settings username_or_email password (trace run) (result run).
Proof.
  unfold trace, result. rewrite login_run. cbv zeta.
  destruct (Server_raises ldap _) as [cause|]; [constructor|].
  destruct (auth_outcome settings _) as [e|d] eqn:HA; [now constructor|].
  destruct (Connection_raises ldap _ _) as [cause|]; [constructor|].
  destruct (search_outcome ldap _ _ _) as [cause|rs]; [constructor|].
  rewrite login_after_search_run.
  destruct (List.filter is_user_object rs) as [|r0 [|r1 l]]; try constructor.
  destruct (raw_attributes r0) as [raw|]; [|constructor].
  destruct (truthy _ && truthy _ && truthy _); [|constructor].
  destruct (first_value_text _); [constructor|].
  destruct (first_value_text _); [constructor|].
  destruct (first_value_text _); [constructor|].
  destruct (dn_text _); [constructor|].
  cbv zeta. fold (verification_session settings l2 password).
  destruct (Connection_raises _ _ _); constructor.
Qed.

(** C1: with the placeholder in the bind DN, [_get_auth_details] has no
    secret to return: it raises UnboundLocalError for its own variable
    [password], the run makes no [Connection] at all, and the call
    raises LDAPConnectionError. *)
Theorem templated_bind_has_no_secret :
  auth_outcome templated_settings (escape_filter_chars username_or_email)
  = inl (UnboundLocalError (lit "password"))
  /\ connections (trace (login ldap templated_settings username_or_email password)) = []
  /\ result (login ldap templated_settings username_or_email password)
     = inl (LDAPConnectionError
              (lit "Error connecting to LDAP server: " ++
               match Server_raises ldap (server_object templated_settings) with
               | Some cause => cause
               | None => exn_str (UnboundLocalError (lit "password"))
               end)).
Proof.
  assert (HA : forall v, auth_outcome templated_settings v
                         = inl (UnboundLocalError (lit "password"))).
  { intros v. apply auth_outcome_templated. vm_compute. reflexivity. }
  split; [apply HA|].
  unfold trace, result. rewrite login_run. cbv zeta. rewrite HA.
  destruct (Server_raises ldap _); split; reflexivity.
Qed.

(** C2: [_get_server] constructs the [Server] from the settings and
    wraps a failure of the constructor in LDAPConnectionError, but when
    the constructor succeeds it returns Python's [None], not the
    [Server]; every [Connection] of a run is therefore given [None] as
    its server. *)
Theorem get_server_returns_no_handle (t : list event) :
  _get_server ldap settings t =
  match Server_raises ldap (server_object settings) with
  | Some cause =>
      (t ++ [EvServer (server_object settings) (Some cause)],
       inl (LDAPConnectionError (lit "Error connecting to LDAP server: " ++ cause)))
  | None => (t ++ [EvServer (server_object settings) None], inr None)
  end
  /\ Forall (fun co => c_server (fst co) = None) (connections (trace run)).
Proof.
  split.
  - unfold _get_server, bind, try_except, ldap3_Server, ret, raise.
    destruct (Server_raises ldap _); reflexivity.
  - destruct run_stage; rewrite ?connections_app; cbn; repeat constructor.
Qed.

(** A consequence of C2: where the library cannot bind a [Connection]
    that has no server, every call of [login] raises
    LDAPConnectionError, whatever the input. *)
Corollary login_fails_where_None_cannot_bind :
  (forall t c, c_server c = None -> Connection_raises ldap t c <> None) ->
  exists message, result run = inl (LDAPConnectionError message).
Proof.
  intros Hnone. unfold result. rewrite login_run. cbv zeta.
  destruct (Server_raises ldap _) as [cause|]; [eexists; reflexivity|].
  destruct (auth_outcome settings _) as [e|d]; [eexists; reflexivity|].
  destruct (Connection_raises ldap _ _) as [cause|] eqn:HC; [eexists; reflexivity|].
  exfalso. revert HC. apply Hnone. reflexivity.
Qed.

(** C3: the filter of every search of a run holds the input only as
    [escape_filter_chars] rewrote it; the rewritten input has none of
    the characters [*], [(], [)] and NUL, the characters of the filter
    that carry structure are the same for any two inputs, a directory
    server reads the rewritten input, up to the parenthesis the filter
    closes it with, as the input itself, character for character,
    without a wildcard, and with attribute names free of reserved
    characters and no additional fragment the whole filter parses as
    "user attribute equals the input or email attribute equals the
    input" whatever the input is. *)
Theorem filter_value_escaped :
  Forall
    (fun a => search_filter a
              = filter_for settings (escape_filter_chars username_or_email))
    (searches (trace run))
  /\ forallb (fun x => negb (is_filter_meta x))
       (escape_filter_chars username_or_email) = true
  /\ (forall other : list Z,
        List.filter is_filter_meta
          (filter_for settings (escape_filter_chars username_or_email))
        = List.filter is_filter_meta
            (filter_for settings (escape_filter_chars other)))
  /\ (forall rest : list Z,
        read_value (escape_filter_chars username_or_email ++ lit ")" ++ rest)
        = Some (map Lit username_or_email, rest))
  /\ (plain_name U = true -> plain_name E = true ->
      SEARCH_FILTER_ADDITIONAL settings = [] ->
      forall n,
        parse_filter (4 + n)
          (filter_for settings (escape_filter_chars username_or_email))
        = Some (FOr [FMatch U (map Lit username_or_email);
                     FMatch E (map Lit username_or_email)], [])).
Proof.
  split; [|split; [|split; [|split]]].
  - destruct run_stage; rewrite ?searches_app; cbn; repeat constructor.
  - apply escape_filter_chars_no_meta.
  - assert (Hnone : forall u : list Z,
               List.filter is_filter_meta (escape_filter_chars u) = []).
    { intros u. pose proof (escape_filter_chars_no_meta u) as Hu.
      induction (escape_filter_chars u) as [|x l IH]; [reflexivity|].
      cbn in Hu. apply andb_prop in Hu as [Hx Hl]. cbn.
      apply negb_true_iff in Hx. rewrite Hx. now apply IH. }
    intros other. unfold filter_for.
    destruct (nonempty (SEARCH_FILTER_ADDITIONAL settings));
      rewrite !List.filter_app, !Hnone; reflexivity.
  - intros rest. apply read_value_escape.
  - intros HU HE Hadd.
    now apply (proj1 (filter_parses_as_two_equalities settings username_or_email HU HE)).
Qed.

(** C4: when the selection of user objects leaves no entry the call
    raises LDAPUserLoginError "LDAP login not found", when it leaves
    more than one it raises LDAPUserLoginError "LDAP login could not be
    determined."; in both cases the only [Connection] of the run is the
    search session: no verification bind is attempted. *)
Theorem no_match_and_ambiguous_match_rejected
    (c : Connection) (a : search_args) (rs : list response_entry) :
  In (EvSearch c a (inr rs)) (trace run) ->
  (List.filter is_user_object rs = [] ->
   result run = inl (LDAPUserLoginError (lit "LDAP login not found")) /\
   connections (trace run) = [(c, None)])
  /\
  ((1 < length (List.filter is_user_object rs))%nat ->
   result run = inl (LDAPUserLoginError (lit "LDAP login could not be determined.")) /\
   connections (trace run) = [(c, None)]).
Proof.
  intros H. destruct (run_answered _ _ _ H) as (_ & _ & -> & ->).
  rewrite login_after_search_run.
  destruct (List.filter is_user_object rs) as [|r0 [|r1 l]]; split; intros Hl;
    try discriminate Hl; try (cbn in Hl; lia); split; reflexivity.
Qed.

(** C5, as amended: for the single user object of the response, if one
    of the three configured attributes is absent or has an empty list
    of values the call raises LDAPUserLoginError "LDAP login is
    invalid." without a verification bind; otherwise, when the first
    value of each attribute decodes as UTF-8 and the distinguished name
    can be encoded, the call returns the three decoded first values as
    soon as the verification bind succeeds, and raises
    LDAPUserLoginError "LDAP bind failed" when it does not. *)
Theorem single_entry_validated_and_decoded
    (c : Connection) (a : search_args) (rs : list response_entry)
    (r : response_entry) (raw : gmap (list Z) (list (list Z))) :
  In (EvSearch c a (inr rs)) (trace run) ->
  List.filter is_user_object rs = [r] ->
  raw_attributes r = Some raw ->
  (truthy (raw !! U) && truthy (raw !! E) && truthy (raw !! F) = false ->
   result run = inl (LDAPUserLoginError (lit "LDAP login is invalid.")) /\
   connections (trace run) = [(c, None)])
  /\
  (forall bu lu be le bf lf username email full_name d,
     raw !! U = Some (bu :: lu) -> raw !! E = Some (be :: le) ->
     raw !! F = Some (bf :: lf) ->
     utf8_decode bu = Some username -> utf8_decode be = Some email ->
     utf8_decode bf = Some full_name ->
     dn r = Some d -> is_Some (utf8_encode d) ->
     result run =
     match Connection_raises ldap (searched settings c a (inr rs))
             (verification_session settings d password) with
     | None => inr (username, email, full_name)
     | Some cause => inl (LDAPUserLoginError (lit "LDAP bind failed: " ++ cause))
     end).
Proof.
  intros H Hf Hraw. destruct (run_answered _ _ _ H) as (_ & _ & -> & ->).
  rewrite login_after_search_run, Hf, Hraw. split.
  - intros ->. split; reflexivity.
  - intros bu lu be le bf lf username email full_name d HU HE HF Du De Df Hd [b Hb].
    rewrite HU, HE, HF, Hd. cbn [truthy andb].
    unfold first_value_text, decode_first. rewrite Du, De, Df. cbn [snd ret].
    rewrite (dn_text_encodable _ _ Hb). cbv zeta.
    fold (verification_session settings d password).
    destruct (Connection_raises ldap _ _); reflexivity.
Qed.

(** C6, as amended: for a single user object that has the three
    attributes, whose first values decode as UTF-8 and whose
    distinguished name can be encoded, the run makes exactly one more
    [Connection] after the search: a SIMPLE bind as that distinguished
    name with the password as the caller gave it, on the same server
    value and with the same [auto_bind] as the search session; the call
    returns the decoded triple exactly when this bind does not raise. *)
Theorem one_verification_bind_as_entry
    (c : Connection) (a : search_args) (rs : list response_entry)
    (r : response_entry) (raw : gmap (list Z) (list (list Z)))
    (bu be bf : list Z) (lu le lf : list (list Z))
    (username email full_name d : list Z) :
  In (EvSearch c a (inr rs)) (trace run) ->
  List.filter is_user_object rs = [r] ->
  raw_attributes r = Some raw ->
  raw !! U = Some (bu :: lu) -> raw !! E = Some (be :: le) ->
  raw !! F = Some (bf :: lf) ->
  utf8_decode bu = Some username -> utf8_decode be = Some email ->
  utf8_decode bf = Some full_name ->
  dn r = Some d -> is_Some (utf8_encode d) ->
  exists o,
    trace run =
    searched settings c a (inr rs) ++
    [EvConnection
       {| c_server := c_server c; c_auto_bind := c_auto_bind c;
          c_client_strategy := SYNC; c_check_names := true;
          c_authentication := SIMPLE;
          c_user := Some d; c_password := Some password |} o]
    /\
    result run =
    match o with
    | None => inr (username, email, full_name)
    | Some cause => inl (LDAPUserLoginError (lit "LDAP bind failed: " ++ cause))
    end.
Proof.
  intros H Hf Hraw HU HE HF Du De Df Hd [b Hb].
  destruct (run_answered _ _ _ H) as (-> & -> & -> & ->).
  rewrite login_after_search_run, Hf, Hraw, HU, HE, HF, Hd. cbn [truthy andb].
  unfold first_value_text, decode_first. rewrite Du, De, Df. cbn [snd ret].
  rewrite (dn_text_encodable _ _ Hb). cbv zeta.
  destruct (Connection_raises ldap _ _) as [cause|];
    [exists (Some cause)|exists None]; split; reflexivity.
Qed.

(** C7: when the [Connection] of the search session raises, and also
    when [_get_auth_details] raises before it, the call raises
    LDAPConnectionError "Error connecting to LDAP server: " with the
    cause; when the search raises, the call raises LDAPUserLoginError
    "LDAP login incorrect: " with the cause. *)
Theorem failures_classified_by_stage :
  (forall c cause rest,
     connections (trace run) = (c, Some cause) :: rest ->
     result run =
     inl (LDAPConnectionError (lit "Error connecting to LDAP server: " ++ cause)))
  /\
  (forall e,
     Server_raises ldap (server_object settings) = None ->
     auth_outcome settings (escape_filter_chars username_or_email) = inl e ->
     result run =
     inl (LDAPConnectionError (lit "Error connecting to LDAP server: " ++ exn_str e)))
  /\
  (forall c a cause,
     In (EvSearch c a (inl cause)) (trace run) ->
     result run = inl (LDAPUserLoginError (lit "LDAP login incorrect: " ++ cause))).
Proof.
  split; [|split].
  - intros c cause rest. destruct run_stage; try discriminate.
    cbn. intros [= <- <- <-]. reflexivity.
  - intros e HS HA. unfold result. rewrite login_run. cbv zeta.
    now rewrite HS, HA.
  - intros c a cause H. unfold result.
    now rewrite (run_search_raised _ _ _ _ _ _ _ H).
Qed.


(** C9, as amended: no run of [login] releases a session; a run opens
    at most two, and every session it opened is still open when the
    call returns or raises. *)
Theorem sessions_never_released :
  released (trace run) = [] /\ (length (opened (trace run)) <= 2)%nat.
Proof.
  destruct run_stage; rewrite ?released_app, ?opened_app; cbn; split;
    try reflexivity; try lia.
  destruct o; cbn; lia.
Qed.

(** C10, as amended: for a single user object that has the three
    attributes, a first value that is not UTF-8 makes the call raise
    UnicodeDecodeError, which is neither LDAPConnectionError nor
    LDAPUserLoginError, before any verification bind; the distinguished
    name is converted inside the [try] of the verification bind, so one
    that UTF-8 cannot encode makes the call raise LDAPUserLoginError
    "LDAP bind failed: ". *)
Theorem undecodable_values
    (c : Connection) (a : search_args) (rs : list response_entry)
    (r : response_entry) (raw : gmap (list Z) (list (list Z))) :
  In (EvSearch c a (inr rs)) (trace run) ->
  List.filter is_user_object rs = [r] ->
  raw_attributes r = Some raw ->
  truthy (raw !! U) && truthy (raw !! E) && truthy (raw !! F) = true ->
  (forall name b l,
     In name [U; E; F] -> raw !! name = Some (b :: l) -> utf8_decode b = None ->
     result run = inl UnicodeDecodeError /\
     is_ldap_error UnicodeDecodeError = false /\
     connections (trace run) = [(c, None)])
  /\
  (forall bu lu be le bf lf d,
     raw !! U = Some (bu :: lu) -> raw !! E = Some (be :: le) ->
     raw !! F = Some (bf :: lf) ->
     is_Some (utf8_decode bu) -> is_Some (utf8_decode be) ->
     is_Some (utf8_decode bf) ->
     dn r = Some d -> utf8_encode d = None ->
     result run =
     inl (LDAPUserLoginError (lit "LDAP bind failed: " ++ exn_str UnicodeEncodeError)) /\
     connections (trace run) = [(c, None)]).
Proof.
  intros H Hf Hraw Ht. destruct (run_answered _ _ _ H) as (_ & _ & -> & ->).
  rewrite login_after_search_run, Hf, Hraw, Ht. split.
  - intros name b l Hn Hb Hd.
    destruct (raw !! U) as [[|bu lu]|] eqn:HU; try discriminate Ht.
    destruct (raw !! E) as [[|be le]|] eqn:HE; try discriminate Ht.
    destruct (raw !! F) as [[|bf lf]|] eqn:HF; try discriminate Ht.
    unfold first_value_text, decode_first.
    destruct (utf8_decode bu) as [username|] eqn:Du; [|repeat split].
    destruct (utf8_decode be) as [email|] eqn:De; [|repeat split].
    destruct (utf8_decode bf) as [full_name|] eqn:Df; [|repeat split].
    exfalso. cbn [In] in Hn. destruct Hn as [<-|[<-|[<-|[]]]]; congruence.
  - intros bu lu be le bf lf d HU HE HF [username Du] [email De] [full_name Df] Hd He.
    rewrite HU, HE, HF, Hd. unfold first_value_text, decode_first.
    rewrite Du, De, Df. cbn [snd ret]. rewrite (dn_text_surrogate _ He).
    split; reflexivity.
Qed.

End Claims.

(** * The claims on example directories *)

Ltac in_trace := vm_compute; repeat (first [left; reflexivity | right]).
Ltac by_computation := vm_compute; reflexivity.

(** Nobody matches; a search reference alone is no user object. *)
Lemma no_match_and_ambiguous_match_rejected_witness :
  (result (login (directory None (lit "secret") (inr [referral])) no_settings
             (lit "nobody") (lit "secret"))
   = inl (LDAPUserLoginError (lit "LDAP login not found")) /\
   connections (trace (login (directory None (lit "secret") (inr [referral]))
                         no_settings (lit "nobody") (lit "secret")))
   = [(search_session no_settings anonymous, None)])
  /\
  (result (login (directory None (lit "secret") (inr [bob; referral; carol]))
             no_settings (lit "shared@example.com") (lit "secret"))
   = inl (LDAPUserLoginError (lit "LDAP login could not be determined.")) /\
   connections (trace (login (directory None (lit "secret") (inr [bob; referral; carol]))
                         no_settings (lit "shared@example.com") (lit "secret")))
   = [(search_session no_settings anonymous, None)]).
Proof.
  split.
  - apply (no_match_and_ambiguous_match_rejected
             (directory None (lit "secret") (inr [referral])) no_settings
             (lit "nobody") (lit "secret")
             (search_session no_settings anonymous)
             (search_request no_settings (lit "nobody")) [referral]).
    + in_trace.
    + reflexivity.
  - apply (no_match_and_ambiguous_match_rejected
             (directory None (lit "secret") (inr [bob; referral; carol])) no_settings
             (lit "shared@example.com") (lit "secret")
             (search_session no_settings anonymous)
             (search_request no_settings (lit "shared@example.com"))
             [bob; referral; carol]).
    + in_trace.
    + cbn. lia.
Defined.

(** Dave has no mail address; Alice has everything and her password
    is right. *)
Lemma single_entry_validated_and_decoded_witness :
  (result (login (directory None (lit "secret") (inr [dave])) no_settings
             (lit "dave") (lit "secret"))
   = inl (LDAPUserLoginError (lit "LDAP login is invalid.")) /\
   connections (trace (login (directory None (lit "secret") (inr [dave]))
                         no_settings (lit "dave") (lit "secret")))
   = [(search_session no_settings anonymous, None)])
  /\
  result (login (directory None (lit "secret") (inr [alice])) no_settings
            (lit "alice") (lit "secret"))
  = inr (lit "alice", lit "alice@example.com", lit "Alice A").
Proof.
  split.
  - apply (single_entry_validated_and_decoded
             (directory None (lit "secret") (inr [dave])) no_settings
             (lit "dave") (lit "secret")
             (search_session no_settings anonymous)
             (search_request no_settings (lit "dave")) [dave] dave
             (attributes_of [lit "dave"] [] [lit "Dave D"])).
    + in_trace.
    + reflexivity.
    + reflexivity.
    + by_computation.
  - refine (eq_trans
              (proj2 (single_entry_validated_and_decoded
                        (directory None (lit "secret") (inr [alice])) no_settings
                        (lit "alice") (lit "secret")
                        (search_session no_settings anonymous)
                        (search_request no_settings (lit "alice")) [alice] alice
                        (attributes_of [lit "alice"] [lit "alice@example.com"]
                           [lit "Alice A"]) _ _ _)
                 (lit "alice") [] (lit "alice@example.com") [] (lit "Alice A") []
                 (lit "alice") (lit "alice@example.com") (lit "Alice A")
                 (lit "uid=alice,ou=people,dc=example,dc=com")
                 _ _ _ _ _ _ _ _) _).
    all: try reflexivity; try by_computation.
    + in_trace.
    + eexists. by_computation.
Defined.

(** Alice with the right password, under the settings of scenario A:
    the second bind is hers, with start-TLS as for the search. *)
Lemma one_verification_bind_as_entry_witness :
  exists o,
    trace (login (directory None (lit "service") (inr [alice])) example_settings
             (lit "alice") (lit "service"))
    = searched example_settings (search_session example_settings service_account)
        (search_request example_settings (lit "alice")) (inr [alice])
      ++ [EvConnection
            {| c_server := None; c_auto_bind := AUTO_BIND_TLS_BEFORE_BIND;
               c_client_strategy := SYNC; c_check_names := true;
               c_authentication := SIMPLE;
               c_user := Some (lit "uid=alice,ou=people,dc=example,dc=com");
               c_password := Some (lit "service") |} o]
    /\ result (login (directory None (lit "service") (inr [alice])) example_settings
                 (lit "alice") (lit "service"))
       = match o with
         | None => inr (lit "alice", lit "alice@example.com", lit "Alice A")
         | Some cause => inl (LDAPUserLoginError (lit "LDAP bind failed: " ++ cause))
         end.
Proof.
  apply (one_verification_bind_as_entry
           (directory None (lit "service") (inr [alice])) example_settings
           (lit "alice") (lit "service")
           (search_session example_settings service_account)
           (search_request example_settings (lit "alice")) [alice] alice
           (attributes_of [lit "alice"] [lit "alice@example.com"] [lit "Alice A"])
           (lit "alice") (lit "alice@example.com") (lit "Alice A") [] [] []
           (lit "alice") (lit "alice@example.com") (lit "Alice A")
           (lit "uid=alice,ou=people,dc=example,dc=com")).
  all: try reflexivity; try by_computation.
  - in_trace.
  - eexists. by_computation.
Defined.

(** The service account is refused; the search times out. *)
Lemma failures_classified_by_stage_witness :
  result (login (directory None (lit "secret") (inr [alice])) example_settings
            (lit "alice") (lit "secret"))
  = inl (LDAPConnectionError
           (lit "Error connecting to LDAP server: " ++ lit "invalidCredentials"))
  /\
  result (login (directory None (lit "secret") (inl (lit "timeout"))) no_settings
            (lit "alice") (lit "secret"))
  = inl (LDAPUserLoginError (lit "LDAP login incorrect: " ++ lit "timeout")).
Proof.
  split.
  - apply (proj1 (failures_classified_by_stage
                    (directory None (lit "secret") (inr [alice])) example_settings
                    (lit "alice") (lit "secret"))
             (search_session example_settings service_account)
             (lit "invalidCredentials") []).
    by_computation.
  - apply (proj2 (proj2 (failures_classified_by_stage
                           (directory None (lit "secret") (inl (lit "timeout")))
                           no_settings (lit "alice") (lit "secret")))
             (search_session no_settings anonymous)
             (search_request no_settings (lit "alice")) (lit "timeout")).
    in_trace.
Defined.

(** An attribute that is not UTF-8; a distinguished name with a lone
    surrogate. *)
Lemma undecodable_values_witness :
  (result (login (directory None (lit "secret") (inr [latin])) no_settings
             (lit "latin") (lit "secret"))
   = inl UnicodeDecodeError /\
   is_ldap_error UnicodeDecodeError = false /\
   connections (trace (login (directory None (lit "secret") (inr [latin]))
                         no_settings (lit "latin") (lit "secret")))
   = [(search_session no_settings anonymous, None)])
  /\
  (result (login (directory None (lit "secret") (inr [lone])) no_settings
             (lit "lone") (lit "secret"))
   = inl (LDAPUserLoginError
            (lit "LDAP bind failed: " ++ exn_str UnicodeEncodeError)) /\
   connections (trace (login (directory None (lit "secret") (inr [lone]))
                         no_settings (lit "lone") (lit "secret")))
   = [(search_session no_settings anonymous, None)]).
Proof.
  split.
  - apply (proj1 (undecodable_values
                    (directory None (lit "secret") (inr [latin])) no_settings
                    (lit "latin") (lit "secret")
                    (search_session no_settings anonymous)
                    (search_request no_settings (lit "latin")) [latin] latin
                    (attributes_of [[255]] [lit "latin@example.com"] [lit "Latin"])
                    ltac:(in_trace) eq_refl eq_refl ltac:(by_computation))
             (lit "uid") [255] []).
    + left. reflexivity.
    + by_computation.
    + reflexivity.
  - apply (proj2 (undecodable_values
                    (directory None (lit "secret") (inr [lone])) no_settings
                    (lit "lone") (lit "secret")
                    (search_session no_settings anonymous)
                    (search_request no_settings (lit "lone")) [lone] lone
                    (attributes_of [lit "lone"] [lit "lone@example.com"] [lit "Lone"])
                    ltac:(in_trace) eq_refl eq_refl ltac:(by_computation))
             (lit "lone") [] (lit "lone@example.com") [] (lit "Lone") [] [55296]).
    all: try reflexivity; try by_computation.
    all: eexists; by_computation.
Defined.

(** The crafted input of the specification: it is matched literally. *)
Lemma filter_value_escaped_witness :
  parse_filter 4 (filter_for no_settings (escape_filter_chars (lit "x)(uid=*")))
  = Some (FOr [FMatch (lit "uid") (map Lit (lit "x)(uid=*"));
               FMatch (lit "mail") (map Lit (lit "x)(uid=*"))], []).
Proof.
  apply (proj2 (proj2 (proj2 (proj2
           (filter_value_escaped (directory None (lit "secret") (inr []))
              no_settings (lit "x)(uid=*") (lit "secret")))))
           ltac:(by_computation) ltac:(by_computation) eq_refl 0%nat).
Defined.

(** ** Where the code departs from the claims *)

(** C5, as stated, fails: the only value of Blank's [uid] is the empty
    octet string, so the attribute has no non-empty value, yet the call
    does not raise "LDAP login is invalid." but returns the triple,
    with an empty username. *)
Lemma blank_username_accepted :
  List.filter is_user_object [blank] = [blank]
  /\ spec_has_nonempty_value
       (attributes_of [[]] [lit "blank@example.com"] [lit "Blank"]
          !! USERNAME_ATTRIBUTE no_settings) = false
  /\ result (login (directory None (lit "secret") (inr [blank])) no_settings
               (lit "blank@example.com") (lit "secret"))
     = inr ([], lit "blank@example.com", lit "Blank").
Proof. repeat split; by_computation. Qed.

(** C6, as stated, fails: Latin is the single user object and has a
    value for each of the three attributes, yet the run makes no
    verification bind: its only [Connection] is the search session. *)
Lemma undecodable_entry_not_verified :
  List.filter is_user_object [latin] = [latin]
  /\ (truthy (attributes_of [[255]] [lit "latin@example.com"] [lit "Latin"]
                !! USERNAME_ATTRIBUTE no_settings)
      && truthy (attributes_of [[255]] [lit "latin@example.com"] [lit "Latin"]
                   !! EMAIL_ATTRIBUTE no_settings)
      && truthy (attributes_of [[255]] [lit "latin@example.com"] [lit "Latin"]
                   !! FULL_NAME_ATTRIBUTE no_settings)) = true
  /\ connections (trace (login (directory None (lit "secret") (inr [latin]))
                           no_settings (lit "latin") (lit "secret")))
     = [(search_session no_settings anonymous, None)]
  /\ result (login (directory None (lit "secret") (inr [latin])) no_settings
               (lit "latin") (lit "secret"))
     = inl UnicodeDecodeError.
Proof. repeat split; by_computation. Qed.

(** C9, as stated, fails: nobody matches, the call raises, and the
    search session it opened has not been released. *)
Lemma session_left_open :
  result (login (directory None (lit "secret") (inr [])) no_settings
            (lit "nobody") (lit "secret"))
  = inl (LDAPUserLoginError (lit "LDAP login not found"))
  /\ opened (trace (login (directory None (lit "secret") (inr [])) no_settings
                      (lit "nobody") (lit "secret")))
     = [search_session no_settings anonymous]
  /\ ~ (forall c,
          In c (opened (trace (login (directory None (lit "secret") (inr []))
                                 no_settings (lit "nobody") (lit "secret")))) ->
          In c (released (trace (login (directory None (lit "secret") (inr []))
                                   no_settings (lit "nobody") (lit "secret"))))).
Proof.
  split; [by_computation|]. split; [by_computation|].
  intros H. apply (H (search_session no_settings anonymous)). in_trace.
Qed.

(** C10, as stated, fails for the distinguished name: Lone's holds a
    lone surrogate, which UTF-8 cannot encode, and the call raises
    LDAPUserLoginError, one of the two kinds of the module. *)
Lemma unencodable_dn_is_a_login_error :
  dn lone = Some [55296]
  /\ utf8_encode [55296] = None
  /\ result (login (directory None (lit "secret") (inr [lone])) no_settings
               (lit "lone") (lit "secret"))
     = inl (LDAPUserLoginError
              (lit "LDAP bind failed: " ++ exn_str UnicodeEncodeError))
  /\ is_ldap_error
       (LDAPUserLoginError (lit "LDAP bind failed: " ++ exn_str UnicodeEncodeError))
     = true.
Proof. repeat split; by_computation. Qed.

(** The secure scheme is recognised whatever its case, and only the
    scheme. *)
Example use_ssl_ex :
  use_ssl (server_object example_settings) = true
  /\ use_ssl (server_object no_settings) = false
  /\ startswith (lower (lit "LDAPS://Ldap.Example.Com")) (lit "ldaps://") = true
  /\ startswith (lower (lit "ldap://ldaps://")) (lit "ldaps://") = false.
Proof. repeat split; by_computation. Qed.

(** The one search of a login under the settings of scenario A. *)
Example search_of_scenario_A :
  searches (trace (login (directory None (lit "service") (inr [alice]))
                     example_settings (lit "alice*") (lit "service")))
  = [{| search_base := lit "dc=example,dc=com";
        search_filter :=
          lit "(&(|(uid=alice\2a)(mail=alice\2a))(objectClass=person))";
        search_scope := SUBTREE;
        attributes := [lit "uid"; lit "mail"; lit "displayName"];
        paged_size := 5 |}].
Proof. by_computation. Qed.

(** Scenarios A to E of the specification, on the example directory. *)
Example scenarios :
  result (login (directory None (lit "secret") (inr [alice])) no_settings
            (lit "alice") (lit "secret"))
  = inr (lit "alice", lit "alice@example.com", lit "Alice A")
  /\ result (login (directory None (lit "secret") (inr [])) no_settings
               (lit "nobody") (lit "secret"))
     = inl (LDAPUserLoginError (lit "LDAP login not found"))
  /\ result (login (directory None (lit "secret") (inr [bob; carol])) no_settings
               (lit "shared@example.com") (lit "secret"))
     = inl (LDAPUserLoginError (lit "LDAP login could not be determined."))
  /\ result (login (directory None (lit "secret") (inr [alice])) no_settings
               (lit "alice") (lit "wrong"))
     = inl (LDAPUserLoginError (lit "LDAP bind failed: invalidCredentials"))
  /\ trace (login (directory (Some (lit "unreachable")) (lit "secret") (inr [alice]))
              no_settings (lit "alice") (lit "secret"))
     = [EvServer (server_object no_settings) (Some (lit "unreachable"))]
  /\ result (login (directory (Some (lit "unreachable")) (lit "secret") (inr [alice]))
               no_settings (lit "alice") (lit "secret"))
     = inl (LDAPConnectionError (lit "Error connecting to LDAP server: unreachable")).
Proof. repeat split; by_computation. Qed.

(** Without the escaping the crafted input would add two conditions
    that match every entry; escaped, it is one literal value. *)
Example injection_without_escaping :
  parse_filter 10 (lit "(|(uid=" ++ lit "x)(uid=*" ++ lit ")(mail=" ++ lit "x)(uid=*" ++ lit "))")
  = Some (FOr [FMatch (lit "uid") (map Lit (lit "x")); FMatch (lit "uid") [Star];
               FMatch (lit "mail") (map Lit (lit "x")); FMatch (lit "uid") [Star]], [])
  /\ parse_filter 10 (filter_for no_settings (escape_filter_chars (lit "x)(uid=*")))
     = Some (FOr [FMatch (lit "uid") (map Lit (lit "x)(uid=*"));
                  FMatch (lit "mail") (map Lit (lit "x)(uid=*"))], []).
Proof. split; vm_compute; reflexivity. Qed.

(** * Further properties of the connector *)

(** ** [_get_auth_details] *)

(** The credentials of the search bind come from the settings alone:
    the function gives the same outcome for every input, leaves the
    directory alone, and when it returns, it returns either the
    configured bind DN and bind password for a SIMPLE bind, the bind DN
    being non-empty, or no identity and no secret for an ANONYMOUS
    bind, the bind DN being empty, whatever bind password is set. *)
Theorem auth_details_from_settings_alone (settings : Settings) :
  (forall v1 v2 t,
     _get_auth_details settings v1 t = _get_auth_details settings v2 t)
  /\
  (forall v t t' d,
     _get_auth_details settings v t = (t', inr d) ->
     t' = t /\
     ((BIND_DN settings <> [] /\ d_authentication d = SIMPLE /\
       d_user d = Some (BIND_DN settings) /\
       d_password d = Some (BIND_PASSWORD settings))
      \/
      (BIND_DN settings = [] /\ d_authentication d = ANONYMOUS /\
       d_user d = None /\ d_password d = None))).
Proof.
  split.
  - intros v1 v2 t. unfold _get_auth_details.
    destruct (nonempty (BIND_DN settings) && contains _ _); [reflexivity|].
    destruct (nonempty (BIND_DN settings)); reflexivity.
  - intros v t t' d. unfold _get_auth_details.
    destruct (nonempty (BIND_DN settings) && contains _ _); [discriminate|].
    destruct (BIND_DN settings) as [|c dn] eqn:HB; cbn [nonempty].
    + intros [= <- <-]. split; [reflexivity|]. right. repeat split; reflexivity.
    + intros [= <- <-]. split; [reflexivity|]. left. repeat split; try reflexivity.
      discriminate.
Qed.

(** [sub in s]: [s] holds [sub] somewhere. *)
Lemma startswith_app (q r : list Z) : startswith (q ++ r) q = true.
Proof.
  induction q as [|x q IH]; [reflexivity|].
  cbn. now rewrite Z.eqb_refl, IH.
Qed.

Lemma startswith_inv (s q : list Z) :
  startswith s q = true -> exists r, s = q ++ r.
Proof.
  revert s. induction q as [|x q IH]; intros s H.
  - now exists s.
  - destruct s as [|c s]; [discriminate|]. cbn in H.
    apply andb_prop in H as [Hc Hs]. apply Z.eqb_eq in Hc as ->.
    destruct (IH _ Hs) as [r ->]. now exists r.
Qed.

Lemma contains_spec (sub s : list Z) :
  contains sub s = true <-> exists a b, s = a ++ sub ++ b.
Proof.
  split.
  - induction s as [|c s IH]; cbn [contains]; intros H.
    + apply orb_prop in H as [H|H]; [|discriminate].
      destruct (startswith_inv _ _ H) as [r ->]. now exists [], r.
    + apply orb_prop in H as [H|H].
      * destruct (startswith_inv _ _ H) as [r ->]. now exists [], r.
      * destruct (IH H) as (a & b & ->). now exists (c :: a), b.
  - intros (a & b & ->). induction a as [|c a IH].
    + cbn [app]. destruct (sub ++ b) eqn:E0; cbn [contains];
        rewrite <- ?E0, startswith_app; reflexivity.
    + cbn [app contains]. rewrite IH. apply orb_true_r.
Qed.

(** ** [login] *)

Lemma dn_text_inv (o : option (list Z)) (d : list Z) :
  dn_text o = inr d -> o = Some d.
Proof.
  unfold dn_text, recode_dn. destruct o as [d0|]; [|discriminate].
  destruct (utf8_encode d0) as [b|] eqn:E; [|discriminate].
  rewrite (utf8_decode_encode _ _ E). now intros [= ->].
Qed.

Lemma first_value_text_inv (v : option (list (list Z))) (s : list Z) :
  first_value_text v = inr s ->
  exists b l, v = Some (b :: l) /\ utf8_decode b = Some s.
Proof.
  unfold first_value_text, decode_first. destruct v as [[|b l]|]; try discriminate.
  destruct (utf8_decode b) as [s'|] eqn:E; [|discriminate].
  intros [= ->]. eauto.
Qed.

Lemma first_value_text_truthy (v : option (list (list Z))) (e : exn) :
  truthy v = true -> first_value_text v = inl e -> e = UnicodeDecodeError.
Proof.
  unfold first_value_text, decode_first. destruct v as [[|b l]|]; try discriminate.
  intros _. destruct (utf8_decode b); [discriminate|]. now intros [= <-].
Qed.

Lemma filter_singleton_user_object (rs : list response_entry) (r : response_entry) :
  List.filter is_user_object rs = [r] ->
  exists raw d, raw_attributes r = Some raw /\ dn r = Some d.
Proof.
  intros H. assert (Hin : In r (List.filter is_user_object rs)) by (rewrite H; now left).
  apply filter_In in Hin as [_ Hr]. unfold is_user_object in Hr.
  destruct (raw_attributes r) as [raw|]; [|discriminate].
  destruct (dn r) as [d|]; [|discriminate]. eauto.
Qed.

Section Further.

Context (ldap : Ldap3) (settings : Settings).
Context (username_or_email password : list Z).

Local Abbreviation run := (login ldap settings username_or_email password).
Local Abbreviation U := (USERNAME_ATTRIBUTE settings).
Local Abbreviation E := (EMAIL_ATTRIBUTE settings).
Local Abbreviation F := (FULL_NAME_ATTRIBUTE settings).

(** A call of [login] returns only after a verification bind that did
    not raise: when it returns a triple, the run is the [Server]
    construction, the search bind, an answered search and one more
    [Connection], a SIMPLE bind with the caller's password as the
    distinguished name of the single user object of the response; and
    the triple is the decoded first values of that object's three
    attributes. *)
Theorem login_returns_only_after_verification (username email full_name : list Z) :
  result run = inr (username, email, full_name) ->
  exists c a rs r raw d bu lu be le bf lf,
    trace run =
    searched settings c a (inr rs)
    ++ [EvConnection (verification_session settings d password) None]
    /\ List.filter is_user_object rs = [r]
    /\ raw_attributes r = Some raw /\ dn r = Some d
    /\ raw !! U = Some (bu :: lu) /\ utf8_decode bu = Some username
    /\ raw !! E = Some (be :: le) /\ utf8_decode be = Some email
    /\ raw !! F = Some (bf :: lf) /\ utf8_decode bf = Some full_name.
Proof.
  unfold result, trace. rewrite login_run. cbv zeta.
  destruct (Server_raises ldap _) as [cause|]; [discriminate|].
  destruct (auth_outcome settings _) as [e|d0]; [discriminate|].
  destruct (Connection_raises ldap _ _) as [cause|]; [discriminate|].
  destruct (search_outcome ldap _ _ _) as [cause|rs]; [discriminate|].
  rewrite login_after_search_run.
  destruct (List.filter is_user_object rs) as [|r [|r1 l]] eqn:Hf; try discriminate.
  destruct (raw_attributes r) as [raw|] eqn:Hraw; [|discriminate].
  destruct (truthy _ && truthy _ && truthy _); [|discriminate].
  destruct (first_value_text (raw !! U)) as [e|un] eqn:HU; [discriminate|].
  destruct (first_value_text (raw !! E)) as [e|em] eqn:HE; [discriminate|].
  destruct (first_value_text (raw !! F)) as [e|fn] eqn:HF; [discriminate|].
  destruct (dn_text (dn r)) as [e|d] eqn:Hd; [discriminate|].
  cbv zeta. fold (verification_session settings d password).
  destruct (Connection_raises ldap _ _) as [cause|]; [discriminate|].
  cbn [fst snd]. intros [= -> -> ->].
  destruct (first_value_text_inv _ _ HU) as (bu & lu & HU1 & HU2).
  destruct (first_value_text_inv _ _ HE) as (be & le & HE1 & HE2).
  destruct (first_value_text_inv _ _ HF) as (bf & lf & HF1 & HF2).
  exists (search_session settings d0), (search_request settings username_or_email),
    rs, r, raw, d, bu, lu, be, le, bf, lf.
  repeat split; try assumption. now apply dn_text_inv.
Qed.

(** A call of [login] raises nothing but LDAPConnectionError,
    LDAPUserLoginError and UnicodeDecodeError: the look-ups and
    subscripts on the entry cannot fail (no AttributeError, TypeError
    or IndexError), and every other exception is wrapped. *)
Theorem login_raises_three_kinds (e : exn) :
  result run = inl e ->
  is_ldap_error e = true \/ e = UnicodeDecodeError.
Proof.
  unfold result. rewrite login_run. cbv zeta.
  destruct (Server_raises ldap _) as [cause|]; [intros [= <-]; now left|].
  destruct (auth_outcome settings _) as [e0|d0]; [intros [= <-]; now left|].
  destruct (Connection_raises ldap _ _) as [cause|]; [intros [= <-]; now left|].
  destruct (search_outcome ldap _ _ _) as [cause|rs]; [intros [= <-]; now left|].
  rewrite login_after_search_run.
  destruct (List.filter is_user_object rs) as [|r [|r1 l]] eqn:Hf;
    try (intros [= <-]; now left).
  destruct (filter_singleton_user_object _ _ Hf) as (raw & d & -> & Hd).
  destruct (truthy (raw !! U)) eqn:TU; [|intros [= <-]; now left].
  destruct (truthy (raw !! E)) eqn:TE; [|intros [= <-]; now left].
  destruct (truthy (raw !! F)) eqn:TF; [|intros [= <-]; now left].
  cbn [andb].
  destruct (first_value_text (raw !! U)) as [e0|un] eqn:HU.
  { intros [= <-]. right. exact (first_value_text_truthy _ _ TU HU). }
  destruct (first_value_text (raw !! E)) as [e0|em] eqn:HE.
  { intros [= <-]. right. exact (first_value_text_truthy _ _ TE HE). }
  destruct (first_value_text (raw !! F)) as [e0|fn] eqn:HF.
  { intros [= <-]. right. exact (first_value_text_truthy _ _ TF HF). }
  destruct (dn_text (dn r)); [intros [= <-]; now left|].
  cbv zeta. destruct (Connection_raises ldap _ _); [intros [= <-]; now left|].
  discriminate.
Qed.

(** When the verification bind raises, the call raises
    LDAPUserLoginError "LDAP bind failed: " with the cause, whatever
    made the bind fail. *)
Theorem verification_failure_is_login_error
    (c v : Connection) (cause : list Z) :
  connections (trace run) = [(c, None); (v, Some cause)] ->
  result run = inl (LDAPUserLoginError (lit "LDAP bind failed: " ++ cause)).
Proof.
  unfold result, trace. rewrite login_run. cbv zeta.
  destruct (Server_raises ldap _) as [cause0|]; [discriminate|].
  destruct (auth_outcome settings _) as [e|d0]; [discriminate|].
  destruct (Connection_raises ldap _ _) as [cause0|]; [discriminate|].
  destruct (search_outcome ldap _ _ _) as [cause0|rs]; [discriminate|].
  rewrite login_after_search_run.
  destruct (List.filter is_user_object rs) as [|r [|r1 l]]; try discriminate.
  destruct (raw_attributes r) as [raw|]; [|discriminate].
  destruct (truthy _ && truthy _ && truthy _); [|discriminate].
  destruct (first_value_text (raw !! U)); [discriminate|].
  destruct (first_value_text (raw !! E)); [discriminate|].
  destruct (first_value_text (raw !! F)); [discriminate|].
  destruct (dn_text (dn r)); [discriminate|].
  cbv zeta.
  match goal with
  | |- context [Connection_raises ldap ?t ?x] =>
      destruct (Connection_raises ldap t x) as [cause0|]; [|discriminate]
  end.
  cbn [fst snd]. rewrite connections_app. cbn. now intros [= _ _ ->].
Qed.

(** The calls of a run come in one order, [Server], [Connection],
    search, [Connection], starting with [Server]; the run stops at the
    first call that raises, and then the call of [login] raises too:
    nothing is retried and nothing is returned after a failure. *)
Theorem login_stops_at_first_failure :
  (exists o rest, trace run = EvServer (server_object settings) o :: rest)
  /\ map kind_of (trace run)
     `prefix_of` [CallServer; CallConnection; CallSearch; CallConnection]
  /\ forallb (fun e => negb (event_raised e)) (removelast (trace run)) = true
  /\ (existsb event_raised (trace run) = true -> exists e, result run = inl e).
Proof.
  split; [|split; [|split]].
  - destruct (run_stage ldap settings username_or_email password); cbn; eauto.
  - destruct (run_stage ldap settings username_or_email password); cbn.
    + now exists [CallConnection; CallSearch; CallConnection].
    + now exists [CallConnection; CallSearch; CallConnection].
    + now exists [CallSearch; CallConnection].
    + now exists [CallConnection].
    + now exists [CallConnection].
    + now exists [].
  - destruct (run_stage ldap settings username_or_email password); reflexivity.
  - unfold result, trace. rewrite login_run. cbv zeta.
    destruct (Server_raises ldap _) as [cause|]; [eauto|].
    destruct (auth_outcome settings _) as [e|d0]; [eauto|].
    destruct (Connection_raises ldap _ _) as [cause|]; [eauto|].
    destruct (search_outcome ldap _ _ _) as [cause|rs]; [eauto|].
    rewrite login_after_search_run.
    destruct (List.filter is_user_object rs) as [|r [|r1 l]]; eauto.
    destruct (raw_attributes r) as [raw|]; eauto.
    destruct (truthy _ && truthy _ && truthy _); eauto.
    destruct (first_value_text (raw !! U)); eauto.
    destruct (first_value_text (raw !! E)); eauto.
    destruct (first_value_text (raw !! F)); eauto.
    destruct (dn_text (dn r)); eauto.
    cbv zeta. destruct (Connection_raises ldap _ _) as [cause|]; eauto.
    cbn. discriminate.
Qed.

(** Every [Connection] of a run is made with the same options: the
    synchronous strategy, name checking, and start-TLS before the bind
    exactly when LDAP_START_TLS is set; the two sessions of a login are
    never opened in different modes. *)
Theorem connections_share_mode :
  Forall
    (fun co =>
       c_auto_bind (fst co) =
       (if START_TLS settings then AUTO_BIND_TLS_BEFORE_BIND else AUTO_BIND_NO_TLS)
       /\ c_client_strategy (fst co) = SYNC /\ c_check_names (fst co) = true)
    (connections (trace run)).
Proof.
  destruct (run_stage ldap settings username_or_email password); rewrite ?connections_app; cbn; repeat constructor.
Qed.

End Further.

(** ** Two calls of [login] compared *)

Lemma auth_outcome_ignores_input (settings : Settings) (v1 v2 : list Z) :
  auth_outcome settings v1 = auth_outcome settings v2.
Proof.
  unfold auth_outcome, _get_auth_details.
  destruct (nonempty (BIND_DN settings) && contains _ _); [reflexivity|].
  destruct (nonempty (BIND_DN settings)); reflexivity.
Qed.

Lemma take_after_search (ldap : Ldap3) (settings : Settings)
    (server : option Server) (ab : auto_bind_t) (password : list Z)
    (rs : list response_entry) (e1 e2 e3 : event) (n : nat) :
  (n <= 3)%nat ->
  take n (fst (login_after_search ldap settings server ab password rs [e1; e2; e3]))
  = take n [e1; e2; e3].
Proof.
  intros Hn.
  destruct (login_after_search_trace ldap settings password server ab rs [e1; e2; e3])
    as [->|(v & o & ->)]; [reflexivity|].
  rewrite take_app_le by (cbn; lia). reflexivity.
Qed.

(** Neither the username nor the password of a login attempt reaches
    the [Server] construction or the search bind: the first two calls
    of any two runs against the same directory and settings are the
    same, with the same outcome. *)
Theorem search_bind_ignores_input (ldap : Ldap3) (settings : Settings)
    (u1 p1 u2 p2 : list Z) :
  take 2 (trace (login ldap settings u1 p1))
  = take 2 (trace (login ldap settings u2 p2)).
Proof.
  unfold trace. rewrite !login_run. cbv zeta.
  rewrite (auth_outcome_ignores_input settings (escape_filter_chars u1)
             (escape_filter_chars u2)).
  destruct (Server_raises ldap _) as [cause|]; [reflexivity|].
  destruct (auth_outcome settings _) as [e|d]; [reflexivity|].
  destruct (Connection_raises ldap _ _) as [cause|]; [reflexivity|].
  destruct (search_outcome ldap _ _ (search_request settings u1)) as [c1|rs1],
           (search_outcome ldap _ _ (search_request settings u2)) as [c2|rs2];
    unfold searched; rewrite ?take_after_search by lia; reflexivity.
Qed.

(** The password is used by the verification bind only: two runs for
    the same username with different passwords make the same first
    three calls with the same outcomes, and when one of them ends
    without a verification bind, the other is the same run with the
    same result. *)
Theorem password_reaches_only_verification (ldap : Ldap3) (settings : Settings)
    (username_or_email p1 p2 : list Z) :
  take 3 (trace (login ldap settings username_or_email p1))
  = take 3 (trace (login ldap settings username_or_email p2))
  /\
  ((length (connections (trace (login ldap settings username_or_email p1))) <= 1)%nat ->
   login ldap settings username_or_email p1 []
   = login ldap settings username_or_email p2 []).
Proof.
  unfold trace. rewrite !login_run. cbv zeta.
  destruct (Server_raises ldap _) as [cause|]; [split; reflexivity|].
  destruct (auth_outcome settings _) as [e|d]; [split; reflexivity|].
  destruct (Connection_raises ldap _ _) as [cause|]; [split; reflexivity|].
  destruct (search_outcome ldap _ _ _) as [cause|rs]; [split; reflexivity|].
  split.
  - unfold searched. rewrite !take_after_search by lia. reflexivity.
  - rewrite !login_after_search_run.
    destruct (List.filter is_user_object rs) as [|r [|r1 l]]; try reflexivity.
    destruct (raw_attributes r) as [raw|]; [|reflexivity].
    destruct (truthy _ && truthy _ && truthy _); [|reflexivity].
    destruct (first_value_text _); [reflexivity|].
    destruct (first_value_text _); [reflexivity|].
    destruct (first_value_text _); [reflexivity|].
    destruct (dn_text (dn r)); [reflexivity|].
    cbv zeta.
    match goal with
    | |- context [Connection_raises ldap ?t ?x] =>
        destruct (Connection_raises ldap t x)
    end; cbn [fst]; rewrite connections_app; cbn; lia.
Qed.

(** ** Line 159 and line 58 *)

(** The conversion of the distinguished name, to UTF-8 octets and back
    to text, returns the name unchanged or raises UnicodeEncodeError
    (a lone surrogate); it never yields another name, never raises
    UnicodeDecodeError, and does not call the directory. *)
Theorem dn_conversion_is_identity (d : list Z) (t : list event) :
  recode_dn (Some d) t = (t, inr d) \/
  recode_dn (Some d) t = (t, inl UnicodeEncodeError).
Proof.
  unfold recode_dn. destruct (utf8_encode d) as [b|] eqn:E; [left|right; reflexivity].
  now rewrite (utf8_decode_encode _ _ E).
Qed.

Lemma lower_app (a b : list Z) : lower (a ++ b) = lower a ++ lower b.
Proof. unfold lower. apply map_app. Qed.

Lemma startswith_lower (s q : list Z) :
  startswith (lower s) q = true <-> exists p rest, s = p ++ rest /\ lower p = q.
Proof.
  split.
  - intros H. apply startswith_inv in H as [r Hr].
    revert s r Hr. induction q as [|x q IH]; intros s r Hr.
    + now exists [], s.
    + destruct s as [|c s]; [discriminate|].
      change (lower (c :: s)) with (lower_char c :: lower s) in Hr.
      cbn [app] in Hr. injection Hr as Hc Hs.
      destruct (IH s r Hs) as (p & rest & -> & Hp).
      exists (c :: p), rest. split; [reflexivity|].
      change (lower (c :: p)) with (lower_char c :: lower p). now rewrite Hc, Hp.
  - intros (p & rest & -> & <-). rewrite lower_app. apply startswith_app.
Qed.

(** Lower-casing a character gives [x], not itself an upper-case
    letter, exactly for [x] and for the upper-case form of [x]. *)
Lemma lower_char_same_letter (c x : Z) :
  ~ (65 <= x <= 90) -> lower_char c = x <-> same_letter c x.
Proof.
  intros Hx. unfold lower_char, same_letter.
  destruct (Z.leb_spec 65 c), (Z.leb_spec c 90); cbn [andb]; lia.
Qed.

Lemma lower_same_letter (p q : list Z) :
  Forall (fun x => ~ (65 <= x <= 90)) q ->
  lower p = q <-> Forall2 same_letter p q.
Proof.
  intros Hq. revert p. induction Hq as [|x q Hx Hq IH]; intros p.
  - destruct p; split; intros H; try constructor; try discriminate; inversion H.
  - destruct p as [|c p].
    + split; intros H; [discriminate|inversion H].
    + change (lower (c :: p)) with (lower_char c :: lower p). split.
      * intros [= Hc Hp]. constructor.
        -- now apply lower_char_same_letter.
        -- now apply IH.
      * intros H. inversion H as [|? ? ? ? Hc Hp]; subst. f_equal.
        -- now apply lower_char_same_letter.
        -- now apply IH.
Qed.

Lemma lit_ldaps : lit "ldaps://" = [108; 100; 97; 112; 115; 58; 47; 47].
Proof. vm_compute. reflexivity. Qed.

(** The [Server] is asked for SSL exactly when the configured server
    text begins with the eight characters of [ldaps://], each letter
    of which may be written in lower or in upper case; the port and
    the certificates play no part. *)
Theorem use_ssl_iff_ldaps_scheme (settings : Settings) :
  use_ssl (server_object settings) = true <->
  exists scheme rest,
    SERVER settings = scheme ++ rest /\
    Forall2 same_letter scheme [108; 100; 97; 112; 115; 58; 47; 47].
Proof.
  unfold server_object. cbn [use_ssl]. rewrite startswith_lower, lit_ldaps.
  assert (Hq : Forall (fun x => ~ (65 <= x <= 90))
                 [108; 100; 97; 112; 115; 58; 47; 47])
    by (repeat constructor; lia).
  split; intros (scheme & rest & HS & H); exists scheme, rest; split;
    try assumption; now apply (lower_same_letter scheme _ Hq).
Qed.

(** ** The placeholder in the bind DN, in general *)

(** Whenever the configured bind DN holds the placeholder [<username>],
    every call of [login] raises LDAPConnectionError and no
    [Connection] and no search is attempted, whatever the directory,
    the username and the password are. *)
Theorem placeholder_disables_login (ldap : Ldap3) (settings : Settings)
    (username_or_email password before after : list Z) :
  BIND_DN settings = before ++ lit "<username>" ++ after ->
  connections (trace (login ldap settings username_or_email password)) = []
  /\ searches (trace (login ldap settings username_or_email password)) = []
  /\ exists message,
       result (login ldap settings username_or_email password)
       = inl (LDAPConnectionError message).
Proof.
  intros HB.
  assert (HA : auth_outcome settings (escape_filter_chars username_or_email)
               = inl (UnboundLocalError (lit "password"))).
  { apply auth_outcome_templated. apply andb_true_intro. split.
    - rewrite HB. destruct before; [vm_compute|]; reflexivity.
    - apply contains_spec. eauto. }
  unfold trace, result. rewrite login_run. cbv zeta. rewrite HA.
  destruct (Server_raises ldap _); repeat split; eauto.
Qed.

(** ** The filter, by input *)

(** Two different inputs never give the same search filter: the
    escaping keeps apart an input with a reserved character and the
    input that spells out its escape. *)
Theorem filter_distinguishes_inputs (settings : Settings) (u1 u2 : list Z) :
  u1 <> u2 ->
  filter_for settings (escape_filter_chars u1)
  <> filter_for settings (escape_filter_chars u2).
Proof.
  intros Hne Heq. apply Hne. clear Hne.
  assert (Hdisj :
    lit "(|(" ++ USERNAME_ATTRIBUTE settings ++ lit "=" ++ escape_filter_chars u1
    ++ lit ")(" ++ EMAIL_ATTRIBUTE settings ++ lit "=" ++ escape_filter_chars u1
    ++ lit "))" ++ (if nonempty (SEARCH_FILTER_ADDITIONAL settings)
                    then SEARCH_FILTER_ADDITIONAL settings ++ lit ")" else [])
    = lit "(|(" ++ USERNAME_ATTRIBUTE settings ++ lit "=" ++ escape_filter_chars u2
      ++ lit ")(" ++ EMAIL_ATTRIBUTE settings ++ lit "=" ++ escape_filter_chars u2
      ++ lit "))" ++ (if nonempty (SEARCH_FILTER_ADDITIONAL settings)
                      then SEARCH_FILTER_ADDITIONAL settings ++ lit ")" else [])).
  { unfold filter_for in Heq.
    destruct (nonempty (SEARCH_FILTER_ADDITIONAL settings)).
    - apply app_inv_head in Heq. repeat rewrite <- app_assoc in Heq. exact Heq.
    - rewrite !app_nil_r. exact Heq. }
  do 3 apply app_inv_head in Hdisj.
  assert (R : forall u tail,
             read_value (escape_filter_chars u ++ lit ")(" ++ tail)
             = Some (map Lit u, 40 :: tail)).
  { intros u tail. rewrite lit_next. apply (read_value_escape u (40 :: tail)). }
  apply (f_equal read_value) in Hdisj. rewrite !R in Hdisj.
  injection Hdisj as Hmap _. clear - Hmap.
  revert u2 Hmap. induction u1 as [|x u1 IH]; intros [|y u2]; cbn; try discriminate.
  - reflexivity.
  - intros [= -> H]. f_equal. now apply IH.
Qed.

(** ** The further properties on example directories *)

(** The service account of scenario A. *)
Lemma auth_details_from_settings_alone_witness :
  [] = @nil event /\
  ((BIND_DN example_settings <> [] /\ d_authentication service_account = SIMPLE /\
    d_user service_account = Some (BIND_DN example_settings) /\
    d_password service_account = Some (BIND_PASSWORD example_settings))
   \/
   (BIND_DN example_settings = [] /\ d_authentication service_account = ANONYMOUS /\
    d_user service_account = None /\ d_password service_account = None)).
Proof.
  apply (proj2 (auth_details_from_settings_alone example_settings)
           (lit "alice") [] [] service_account).
  by_computation.
Defined.

(** Alice logs in. *)
Lemma login_returns_only_after_verification_witness :
  exists c a rs r raw d bu lu be le bf lf,
    trace (login (directory None (lit "secret") (inr [alice])) no_settings
             (lit "alice") (lit "secret"))
    = searched no_settings c a (inr rs)
      ++ [EvConnection (verification_session no_settings d (lit "secret")) None]
    /\ List.filter is_user_object rs = [r]
    /\ raw_attributes r = Some raw /\ dn r = Some d
    /\ raw !! USERNAME_ATTRIBUTE no_settings = Some (bu :: lu)
    /\ utf8_decode bu = Some (lit "alice")
    /\ raw !! EMAIL_ATTRIBUTE no_settings = Some (be :: le)
    /\ utf8_decode be = Some (lit "alice@example.com")
    /\ raw !! FULL_NAME_ATTRIBUTE no_settings = Some (bf :: lf)
    /\ utf8_decode bf = Some (lit "Alice A").
Proof.
  apply (login_returns_only_after_verification
           (directory None (lit "secret") (inr [alice])) no_settings
           (lit "alice") (lit "secret")).
  by_computation.
Defined.

(** Latin's [uid] is not UTF-8. *)
Lemma login_raises_three_kinds_witness :
  is_ldap_error UnicodeDecodeError = true \/ UnicodeDecodeError = UnicodeDecodeError.
Proof.
  apply (login_raises_three_kinds
           (directory None (lit "secret") (inr [latin])) no_settings
           (lit "latin") (lit "secret")).
  by_computation.
Defined.

(** Alice mistypes her password. *)
Lemma verification_failure_is_login_error_witness :
  result (login (directory None (lit "secret") (inr [alice])) no_settings
            (lit "alice") (lit "wrong"))
  = inl (LDAPUserLoginError (lit "LDAP bind failed: " ++ lit "invalidCredentials")).
Proof.
  apply (verification_failure_is_login_error
           (directory None (lit "secret") (inr [alice])) no_settings
           (lit "alice") (lit "wrong")
           (search_session no_settings anonymous)
           (verification_session no_settings
              (lit "uid=alice,ou=people,dc=example,dc=com") (lit "wrong"))).
  by_computation.
Defined.

(** A wrong password: the second bind raises, and so does the call. *)
Lemma login_stops_at_first_failure_witness :
  exists e,
    result (login (directory None (lit "secret") (inr [alice])) no_settings
              (lit "alice") (lit "wrong")) = inl e.
Proof.
  apply (proj2 (proj2 (proj2
           (login_stops_at_first_failure
              (directory None (lit "secret") (inr [alice])) no_settings
              (lit "alice") (lit "wrong"))))).
  by_computation.
Defined.

(** Nobody matches: the password makes no difference. *)
Lemma password_reaches_only_verification_witness :
  login (directory None (lit "secret") (inr [])) no_settings
    (lit "nobody") (lit "secret") []
  = login (directory None (lit "secret") (inr [])) no_settings
      (lit "nobody") (lit "guess") [].
Proof.
  apply (proj2 (password_reaches_only_verification
                  (directory None (lit "secret") (inr [])) no_settings
                  (lit "nobody") (lit "secret") (lit "guess"))).
  vm_compute. lia.
Defined.

(** The bind DN of [templated_settings]. *)
Lemma placeholder_disables_login_witness :
  connections (trace (login (directory None (lit "secret") (inr [alice]))
                        templated_settings (lit "alice") (lit "secret"))) = []
  /\ searches (trace (login (directory None (lit "secret") (inr [alice]))
                        templated_settings (lit "alice") (lit "secret"))) = []
  /\ exists message,
       result (login (directory None (lit "secret") (inr [alice]))
                 templated_settings (lit "alice") (lit "secret"))
       = inl (LDAPConnectionError message).
Proof.
  apply (placeholder_disables_login
           (directory None (lit "secret") (inr [alice])) templated_settings
           (lit "alice") (lit "secret")
           (lit "uid=") (lit ",ou=people,dc=example,dc=com")).
  by_computation.
Defined.

(** An asterisk and the text of its escape. *)
Lemma filter_distinguishes_inputs_witness :
  filter_for no_settings (escape_filter_chars (lit "a*"))
  <> filter_for no_settings (escape_filter_chars (lit "a\2a")).
Proof.
  apply (filter_distinguishes_inputs no_settings (lit "a*") (lit "a\2a")).
  intros H. vm_compute in H. discriminate H.
Defined.

(** A directory that refuses to bind without a server. *)
Lemma login_fails_where_None_cannot_bind_witness :
  exists message,
    result (login (serverless_refused (lit "secret") (inr [alice])) no_settings
              (lit "alice") (lit "secret"))
    = inl (LDAPConnectionError message).
Proof.
  apply (login_fails_where_None_cannot_bind
           (serverless_refused (lit "secret") (inr [alice])) no_settings
           (lit "alice") (lit "secret")).
  intros t c H. simpl. rewrite H. discriminate.
Defined.

(** A scheme in mixed case asks for SSL. *)
Lemma use_ssl_iff_ldaps_scheme_witness :
  use_ssl (server_object mixed_case_settings) = true.
Proof.
  apply (proj2 (use_ssl_iff_ldaps_scheme mixed_case_settings)).
  exists [76; 100; 97; 112; 83; 58; 47; 47], (lit "Ldap.Example.Com").
  split; [by_computation|].
  repeat (apply List.Forall2_cons;
          [first [left; reflexivity | right; split; [lia | reflexivity]]|]).
  apply List.Forall2_nil.
Defined.
